(** * PANDA file format: record codec and spectrum codec of [panda.py]

    A shallow embedding of the class [PandaFile] (validation at
    construction, [to_txt], [from_txt], [spectrum_to_string] and
    [string_to_spectrum]) together with the Python built-ins it calls,
    followed by the properties of the specification. *)

From Stdlib Require Import ZArith NArith List String Ascii Bool Lia.
From Stdlib Require Import Floats.PrimFloat Floats.SpecFloat Floats.FloatOps.
From Stdlib Require Import DecimalPos DecimalN.
Import ListNotations.

Set Warnings "-inexact-float".
Local Open Scope N_scope.
Local Open Scope list_scope.

(** ** Python strings

    A Python [str] is a sequence of Unicode code points; the source literal
    [ALLOWED_CHARS] holds code points above 255, so characters are numbers
    and not 8-bit [ascii]. *)

Module Py.

Definition char := N.
Definition str := list char.

(** An ASCII literal of the source, as a [str]. *)
Definition lit (s : string) : str := map N_of_ascii (list_ascii_of_string s).

Definition chr (a : ascii) : char := N_of_ascii a.

Fixpoint str_eqb (a b : str) : bool :=
  match a, b with
  | [], [] => true
  | x :: a', y :: b' => (x =? y) && str_eqb a' b'
  | _, _ => false
  end.

(** [c in s] for a one-character [c]. *)
Definition contains (c : char) (s : str) : bool := existsb (N.eqb c) s.

(** [str.isspace] on one character: the code points CPython treats as
    whitespace, which [str.strip()] removes. *)
Definition isspace (c : char) : bool :=
  ((9 <=? c) && (c <=? 13)) || ((28 <=? c) && (c <=? 32))
  || (c =? 133) || (c =? 160) || (c =? 5760)
  || ((8192 <=? c) && (c <=? 8202))
  || (c =? 8232) || (c =? 8233) || (c =? 8239) || (c =? 8287) || (c =? 12288).

Fixpoint dropwhile (p : char -> bool) (s : str) : str :=
  match s with
  | [] => []
  | c :: s' => if p c then dropwhile p s' else s
  end.

Definition lstrip_with (p : char -> bool) (s : str) : str := dropwhile p s.
Definition rstrip_with (p : char -> bool) (s : str) : str :=
  rev (dropwhile p (rev s)).
Definition strip_with (p : char -> bool) (s : str) : str :=
  rstrip_with p (lstrip_with p s).

(** [s.strip()] *)
Definition strip (s : str) : str := strip_with isspace s.

(** [s.strip(chars)] *)
Definition strip_chars (chars : str) (s : str) : str :=
  strip_with (fun c => contains c chars) s.

(** [s.endswith(c)] for a one-character [c]. *)
Definition endswith (s : str) (c : char) : bool :=
  match rev s with
  | [] => false
  | x :: _ => x =? c
  end.

(** [s.split(sep)] for a one-character separator: always at least one
    piece. *)
Fixpoint split (sep : char) (s : str) : list str :=
  match s with
  | [] => [[]]
  | c :: s' =>
      if c =? sep then [] :: split sep s'
      else match split sep s' with
           | [] => [[c]]
           | w :: ws => (c :: w) :: ws
           end
  end.

(** [sep.join(pieces)] *)
Fixpoint join (sep : str) (pieces : list str) : str :=
  match pieces with
  | [] => []
  | [p] => p
  | p :: ps => p ++ sep ++ join sep ps
  end.

(** [s[:-1]] *)
Definition drop_last (s : str) : str := removelast s.

Definition LF : char := 10.
Definition CR : char := 13.

(** Reading a file opened in text mode translates ["\r\n"] and a lone
    ["\r"] to ["\n"] (universal newlines). *)
Fixpoint universal_newlines (s : str) : str :=
  match s with
  | [] => []
  | c :: s' =>
      if c =? CR then
        match s' with
        | c' :: s'' => if c' =? LF then LF :: universal_newlines s''
                       else LF :: universal_newlines s'
        | [] => [LF]
        end
      else c :: universal_newlines s'
  end.

(** Splitting at line feeds, each line keeping its terminator. *)
Fixpoint keepends (s : str) : list str :=
  match s with
  | [] => []
  | c :: s' =>
      if c =? LF then [c] :: keepends s'
      else match keepends s' with
           | [] => [[c]]
           | l :: ls => (c :: l) :: ls
           end
  end.

(** [file.readlines()] on a file with the text [s]. *)
Definition readlines (s : str) : list str := keepends (universal_newlines s).

(** *** Decimal text of integers: [str(n)] *)

Fixpoint uint_chars (d : Decimal.uint) : str :=
  match d with
  | Decimal.Nil => []
  | Decimal.D0 d => 48 :: uint_chars d
  | Decimal.D1 d => 49 :: uint_chars d
  | Decimal.D2 d => 50 :: uint_chars d
  | Decimal.D3 d => 51 :: uint_chars d
  | Decimal.D4 d => 52 :: uint_chars d
  | Decimal.D5 d => 53 :: uint_chars d
  | Decimal.D6 d => 54 :: uint_chars d
  | Decimal.D7 d => 55 :: uint_chars d
  | Decimal.D8 d => 56 :: uint_chars d
  | Decimal.D9 d => 57 :: uint_chars d
  end.

Definition str_of_N (n : N) : str := uint_chars (N.to_uint n).

Definition str_of_int (z : Z) : str :=
  match z with
  | Z0 => str_of_N 0
  | Zpos p => str_of_N (Npos p)
  | Zneg p => 45 :: str_of_N (Npos p)
  end.

End Py.

Import Py.

(** ** Interpreter tables and conversions

    What the program takes from the interpreter and not from its own text:
    the Unicode digit tables above ASCII (used by [str.isdigit] and by
    [int]), the conversions between floats and their text ([str] of a
    float, [float] of a string), and the characters that the encoding of a
    text file encodes, and decodes to themselves again ([open] takes the
    encoding from the platform). *)

Class Interpreter := {
  uni_isdigit : char -> bool;
  uni_decimal : char -> option N;
  float_str : float -> str;
  float_of_str : str -> option float;
  encodable : char -> bool
}.

Section Builtins.
Context {I : Interpreter}.

Definition ascii_digit (c : char) : bool := (48 <=? c) && (c <=? 57).

Definition isdigit_char (c : char) : bool :=
  if c <? 128 then ascii_digit c else uni_isdigit c.

(** [s.isdigit()]: every character is a digit and there is at least one. *)
Definition isdigit (s : str) : bool :=
  match s with
  | [] => false
  | _ => forallb isdigit_char s
  end.

(** Whitespace that [int] skips around a literal: the ASCII blanks and the
    Unicode spaces above ASCII. *)
Definition int_space (c : char) : bool :=
  if c <? 128 then ((9 <=? c) && (c <=? 13)) || (c =? 32) else isspace c.

Definition decimal_value (c : char) : option N :=
  if c <? 128 then (if ascii_digit c then Some (c - 48) else None)
  else uni_decimal c.

(** Digits of an integer literal, single underscores allowed between
    digits; [after_digit] tells whether the previous character was a
    digit. *)
Fixpoint digits_value (acc : N) (after_digit : bool) (s : str) : option N :=
  match s with
  | [] => if after_digit then Some acc else None
  | c :: s' =>
      if c =? 95 then
        if after_digit then digits_value acc false s' else None
      else match decimal_value c with
           | Some d => digits_value (10 * acc + d) true s'
           | None => None
           end
  end.

(** [int(s)] in base ten; [None] when the interpreter raises. *)
Definition int_of_str (s : str) : option Z :=
  match strip_with int_space s with
  | 43 :: t => option_map Z.of_N (digits_value 0 false t)
  | 45 :: t => option_map (fun n => Z.opp (Z.of_N n)) (digits_value 0 false t)
  | t => option_map Z.of_N (digits_value 0 false t)
  end.

End Builtins.

(** ** Values, exceptions and results *)

Inductive number :=
| PyInt (z : Z)
| PyFloat (f : float).

Inductive value :=
| VNum (n : number)
| VStr (s : str).

Inductive exn :=
| ValueError (msg : str)                  (* raise ValueError(msg) of the source *)
| ValueError_unpack (expected got : nat)  (* tuple unpacking of the wrong size *)
| ValueError_int (literal : str)          (* int() on a non-integer text *)
| ValueError_float (literal : str)        (* float() on a non-numeric text *)
| KeyError (key : option str)             (* missing dictionary key *)
| TypeError_not_iterable                  (* iterating over None *)
| UnicodeEncodeError.                     (* writing a character the file's
                                             encoding lacks *)

Inductive result (A : Type) :=
| Ok (a : A)
| Err (e : exn).
Arguments Ok {A} a.
Arguments Err {A} e.

Definition bind {A B} (r : result A) (k : A -> result B) : result B :=
  match r with
  | Ok a => k a
  | Err e => Err e
  end.

Declare Scope py_scope.
Delimit Scope py_scope with py.
Notation "x <- c ;; k" := (bind c (fun x => k))
  (at level 61, c at next level, right associativity) : py_scope.
Notation "' p <- c ;; k" := (bind c (fun x => match x with p => k end))
  (at level 61, p pattern, c at next level, right associativity) : py_scope.
Local Open Scope py_scope.

Section Conversions.
Context {I : Interpreter}.

Definition str_of_number (n : number) : str :=
  match n with
  | PyInt z => str_of_int z
  | PyFloat f => float_str f
  end.

(** [str(v)], which is what an f-string field [{v}] renders. *)
Definition str_of_value (v : value) : str :=
  match v with
  | VNum n => str_of_number n
  | VStr s => s
  end.

Definition py_int (s : str) : result Z :=
  match int_of_str s with
  | Some z => Ok z
  | None => Err (ValueError_int s)
  end.

Definition py_float (s : str) : result float :=
  match float_of_str s with
  | Some f => Ok f
  | None => Err (ValueError_float s)
  end.

End Conversions.

(** ** Dictionaries

    A [dict] with string keys, in insertion order. *)

Definition dict (V : Type) := list (str * V).

Fixpoint dict_get {V} (d : dict V) (k : str) : option V :=
  match d with
  | [] => None
  | (k', v) :: d' => if str_eqb k' k then Some v else dict_get d' k
  end.

(** [d[k] = v] *)
Fixpoint dict_set {V} (d : dict V) (k : str) (v : V) : dict V :=
  match d with
  | [] => [(k, v)]
  | (k', v') :: d' =>
      if str_eqb k' k then (k', v) :: d' else (k', v') :: dict_set d' k v
  end.

(** [k in d] *)
Definition dict_mem {V} (d : dict V) (k : str) : bool :=
  match dict_get d k with
  | Some _ => true
  | None => false
  end.

(** [d[k]], raising [KeyError] *)
Definition getitem {V} (d : dict V) (k : str) : result V :=
  match dict_get d k with
  | Some v => Ok v
  | None => Err (KeyError (Some k))
  end.

(** Mapping a fallible conversion over a list, left to right, as a list
    comprehension does. *)
Fixpoint mapM {A B} (f : A -> result B) (l : list A) : result (list B) :=
  match l with
  | [] => Ok []
  | a :: l' => b <- f a ;; bs <- mapM f l' ;; Ok (b :: bs)
  end.

(** ** numpy's [isclose] with its default tolerances *)

Definition rtol : float := 1e-05%float.
Definition atol : float := 1e-08%float.

Definition isclose (a b : float) : bool :=
  (PrimFloat.leb (PrimFloat.abs (a - b)) (atol + rtol * PrimFloat.abs b)
   && PrimFloat.is_finite b)
  || PrimFloat.eqb a b.

(** ** The class [PandaFile] *)

Module PandaFile.

Definition nl : str := [LF].

Definition ALLOWED_CHARS : str :=
  lit "ABCDEFGHIJKLMNOPQRSTUVWXYZabcdefghijklmnopqrstuvwxyz+-._:|<>?!$%&=()[]{}\/@"
  ++ [226; 8364; 732]
  ++ lit "*0123456789 ".

Definition MAX_LENGTHS : dict N :=
  [ (lit "lab_id", 4);
    (lit "user_id", 4);
    (lit "category", 1);
    (lit "sub_category", 2);
    (lit "sell_year", 4);
    (lit "unique_id", 24);
    (lit "manufacturer", 64);
    (lit "product_code", 64);
    (lit "sell_country", 2);
    (lit "description", 500) ].

(** The attributes of an instance. *)
Record record := {
  lab_id : str;
  user_id : str;
  category : str;
  sub_category : str;
  unique_id : str;
  manufacturer : str;
  product_code : str;
  sell_country : str;
  sell_year : str;
  rated_power : value;
  nominal_frequency : number;
  nominal_voltage : number;
  supply_source : Z;
  description : str;
  current_harmonics : str;
  voltage_harmonics : str;
  sample_rate : option Z;
  current_data : option (list float);
  voltage_data : option (list float)
}.

Section Methods.
Context {I : Interpreter}.

Definition _validate_property (property_name value : str) (digits_only : bool)
  : result str :=
  if digits_only && negb (isdigit value) then
    Err (ValueError (property_name ++ lit " must contain only digits."))
  else if existsb (fun c => negb (contains c ALLOWED_CHARS)) value then
    Err (ValueError (lit "Disallowed characters found in " ++ property_name ++ lit "."))
  else
    max <- getitem MAX_LENGTHS property_name ;;
    if max <? N.of_nat (List.length value) then
      Err (ValueError (property_name ++ lit " exceeds maximum length of "
                       ++ str_of_N max ++ lit " characters."))
    else Ok value.

Definition __init__
    (lab_id user_id : str) (category sub_category : Z)
    (unique_id manufacturer product_code sell_country sell_year : str)
    (rated_power : value) (nominal_frequency nominal_voltage : number)
    (supply_source : Z) (description current_harmonics voltage_harmonics : str)
    (sample_rate : option Z) (current_data voltage_data : option (list float))
  : result record :=
  lab_id' <- _validate_property (lit "lab_id") lab_id true ;;
  user_id' <- _validate_property (lit "user_id") user_id true ;;
  category' <- _validate_property (lit "category") (str_of_int category) true ;;
  sub_category' <-
    _validate_property (lit "sub_category") (str_of_int sub_category) true ;;
  unique_id' <- _validate_property (lit "unique_id") unique_id false ;;
  manufacturer' <- _validate_property (lit "manufacturer") manufacturer false ;;
  product_code' <- _validate_property (lit "product_code") product_code false ;;
  sell_country' <- _validate_property (lit "sell_country") sell_country false ;;
  sell_year' <- _validate_property (lit "sell_year") sell_year true ;;
  description' <- _validate_property (lit "description") description false ;;
  Ok {| lab_id := lab_id';
        user_id := user_id';
        category := category';
        sub_category := sub_category';
        unique_id := unique_id';
        manufacturer := manufacturer';
        product_code := product_code';
        sell_country := sell_country';
        sell_year := sell_year';
        rated_power := rated_power;
        nominal_frequency := nominal_frequency;
        nominal_voltage := nominal_voltage;
        supply_source := supply_source;
        description := description';
        current_harmonics := current_harmonics;
        voltage_harmonics := voltage_harmonics;
        sample_rate := sample_rate;
        current_data := current_data;
        voltage_data := voltage_data |}.

(** One [file.write(f"Key = {v};\n")]. *)
Definition key_line (key : string) (v : str) : str :=
  lit key ++ lit " = " ++ v ++ lit ";" ++ nl.

(** [','.join(map(str, data))]; [data] may be [None]. *)
Definition join_data (data : option (list float)) : result str :=
  match data with
  | Some l => Ok (join (lit ",") (map float_str l))
  | None => Err TypeError_not_iterable
  end.

(** The writes of [to_txt] before the waveform block, one line each. *)
Definition fixed_lines (self : record) : list str :=
  [ lit "TUDHDB_TXT_v01" ++ nl;
    lit "[User Detail]" ++ nl;
    key_line "Lab_ID" (lab_id self);
    key_line "User_ID" (user_id self);
    lit "[EUT]" ++ nl;
    key_line "Category" (category self);
    key_line "Sub_Category" (sub_category self);
    key_line "Unique_ID" (unique_id self);
    key_line "Manufacturer" (manufacturer self);
    key_line "Product_code" (product_code self);
    key_line "Sell_Country" (sell_country self);
    key_line "Sell_Year" (sell_year self);
    key_line "Rated_Power" (str_of_value (rated_power self));
    key_line "Nominal_Frequency" (str_of_number (nominal_frequency self));
    key_line "Nominal_Voltage" (str_of_number (nominal_voltage self));
    key_line "Supply_Source" (str_of_int (supply_source self));
    key_line "Description" (description self);
    lit "[Harmonics]" ++ nl;
    key_line "Current_Harmonics" (current_harmonics self);
    key_line "Voltage_Harmonics" (voltage_harmonics self) ].

(** [file.write(s)] on a file opened for writing as text, [file] being
    the text written so far: the text is encoded at once, and a character
    that the encoding lacks raises [UnicodeEncodeError]. *)
Definition write (file : str) (s : str) : result str :=
  if forallb encodable s then Ok (file ++ s) else Err UnicodeEncodeError.

Fixpoint write_all (file : str) (lines : list str) : result str :=
  match lines with
  | [] => Ok file
  | line :: rest => file' <- write file line ;; write_all file' rest
  end.

(** The text of the file when [to_txt] returns, for a file that the
    system opens and writes; an exception leaves the file with the lines
    written so far.  Each argument of a [write] is evaluated just before
    that [write]. *)
Definition to_txt (self : record) : result str :=
  file <- write_all [] (fixed_lines self) ;;
  match sample_rate self with
  | Some rate =>
      file <- write file (lit "[Waveforms]" ++ nl) ;;
      file <- write file (key_line "Sampling_Rate" (str_of_int rate)) ;;
      c <- join_data (current_data self) ;;
      file <- write file (key_line "Current_Data" c) ;;
      v <- join_data (voltage_data self) ;;
      file <- write file (key_line "Voltage_Data" v) ;;
      Ok file
  | None => Ok file
  end.

(** The state of the scanning loop of [from_txt]: the dictionary [data]
    and the variable [section]. *)
Definition scan_state : Type := dict (dict str) * option str.

(** One iteration of the loop over the lines. *)
Definition scan_line (st : scan_state) (line : str) : result scan_state :=
  let (data, section) := st in
  if endswith (strip line) (chr "]") then
    let section' := strip_chars (lit "[]") (strip line) in
    Ok (dict_set data section' [], Some section')
  else if contains (chr "=") line then
    match split (chr "=") line with
    | [key; value] =>
        let v := strip (hd [] (split (chr ";") value)) in
        match section with
        | Some s =>
            d <- getitem data s ;;
            Ok (dict_set data s (dict_set d (strip key) v), section)
        | None => Err (KeyError None)
        end
    | parts => Err (ValueError_unpack 2 (List.length parts))
    end
  else Ok st.

Fixpoint scan (st : scan_state) (lines : list str) : result scan_state :=
  match lines with
  | [] => Ok st
  | line :: rest => st' <- scan_line st line ;; scan st' rest
  end.

(** [data[section][key]] *)
Definition lookup (data : dict (dict str)) (section key : string) : result str :=
  d <- getitem data (lit section) ;; getitem d (lit key).

(** The three waveform arguments of the constructor call. *)
Definition waveform_args (data : dict (dict str))
  : result (option Z * option (list float) * option (list float)) :=
  sample_rate <-
    (if dict_mem data (lit "Waveforms")
     then s <- lookup data "Waveforms" "Sampling_Rate" ;;
          z <- py_int s ;; Ok (Some z)
     else Ok None) ;;
  current_data <-
    (if dict_mem data (lit "Waveforms")
     then s <- lookup data "Waveforms" "Current_Data" ;;
          l <- mapM py_float (split (chr ",") s) ;; Ok (Some l)
     else Ok None) ;;
  voltage_data <-
    (if dict_mem data (lit "Waveforms")
     then s <- lookup data "Waveforms" "Voltage_Data" ;;
          l <- mapM py_float (split (chr ",") s) ;; Ok (Some l)
     else Ok None) ;;
  Ok (sample_rate, current_data, voltage_data).

(** The constructor call of [from_txt], its arguments evaluated in the
    order they are written. *)
Definition build (data : dict (dict str)) : result record :=
  lab_id <- lookup data "User Detail" "Lab_ID" ;;
  user_id <- lookup data "User Detail" "User_ID" ;;
  category <- (s <- lookup data "EUT" "Category" ;; py_int s) ;;
  sub_category <- (s <- lookup data "EUT" "Sub_Category" ;; py_int s) ;;
  unique_id <- lookup data "EUT" "Unique_ID" ;;
  manufacturer <- lookup data "EUT" "Manufacturer" ;;
  product_code <- lookup data "EUT" "Product_code" ;;
  sell_country <- lookup data "EUT" "Sell_Country" ;;
  sell_year <- lookup data "EUT" "Sell_Year" ;;
  rated_power <- lookup data "EUT" "Rated_Power" ;;
  nominal_frequency <- (s <- lookup data "EUT" "Nominal_Frequency" ;; py_float s) ;;
  nominal_voltage <- (s <- lookup data "EUT" "Nominal_Voltage" ;; py_int s) ;;
  supply_source <- (s <- lookup data "EUT" "Supply_Source" ;; py_int s) ;;
  description <- lookup data "EUT" "Description" ;;
  current_harmonics <- lookup data "Harmonics" "Current_Harmonics" ;;
  voltage_harmonics <- lookup data "Harmonics" "Voltage_Harmonics" ;;
  w <- waveform_args data ;;
  let '(sample_rate, current_data, voltage_data) := w in
  __init__ lab_id user_id category sub_category unique_id manufacturer
           product_code sell_country sell_year (VStr rated_power)
           (PyFloat nominal_frequency) (PyInt nominal_voltage) supply_source
           description current_harmonics voltage_harmonics
           sample_rate current_data voltage_data.

(** [from_txt] on a file with the text [text]. *)
Definition from_txt (text : str) : result record :=
  st <- scan ([], None) (readlines text) ;;
  build (fst st).

(** [zip(a, b, c)] *)
Definition zip3 {A B C} (a : list A) (b : list B) (c : list C)
  : list (A * B * C) :=
  map (fun t => (fst t, fst (snd t), snd (snd t))) (combine a (combine b c)).

(** The unpacking of the transposed [zip] of the triples into three
    targets: the transposition must yield three sequences, and yields
    none when [triples] is empty. *)
Definition unzip3 {A B C} (triples : list (A * B * C))
  : result (list A * list B * list C) :=
  match triples with
  | [] => Err (ValueError_unpack 3 0)
  | _ => Ok (map (fun t => fst (fst t)) triples,
             map (fun t => snd (fst t)) triples,
             map (fun t => snd t) triples)
  end.

Definition spectrum_to_string
    (harmonic_orders : list number) (magnitudes_rms : list float)
    (phase_angle_degree : list number) : result str :=
  if negb (List.length harmonic_orders =? List.length magnitudes_rms)%nat
     || negb (List.length harmonic_orders =? List.length phase_angle_degree)%nat
  then Err (ValueError (lit "Length of harmonics, magnitudes and phases must be equal."))
  else
    f <- unzip3 (filter (fun t => negb (isclose (snd (fst t)) 0%float))
                        (zip3 harmonic_orders magnitudes_rms phase_angle_degree)) ;;
    let '(filtered_harmonic_orders, filtered_magnitudes_rms,
          filtered_phase_angle_degree) := f in
    let spectrum_string :=
      fold_left
        (fun acc t =>
           acc ++ str_of_number (fst (fst t)) ++ lit ","
               ++ float_str (snd (fst t)) ++ lit ","
               ++ str_of_number (snd t) ++ lit "/")
        (zip3 filtered_harmonic_orders filtered_magnitudes_rms
              filtered_phase_angle_degree)
        [] in
    Ok (drop_last spectrum_string).

(** One iteration of the loop of [string_to_spectrum]. *)
Definition decode_entry (acc : list float * list float * list float)
    (harmonic : str) : result (list float * list float * list float) :=
  let '(harmonic_orders, magnitudes_rms, phase_angles) := acc in
  match split (chr ",") harmonic with
  | [harmonic_order; magnitude_rms; phase_angle] =>
      o <- py_float harmonic_order ;;
      m <- py_float magnitude_rms ;;
      p <- py_float phase_angle ;;
      Ok (harmonic_orders ++ [o], magnitudes_rms ++ [m], phase_angles ++ [p])
  | parts => Err (ValueError_unpack 3 (List.length parts))
  end.

Fixpoint decode_entries (acc : list float * list float * list float)
    (entries : list str) : result (list float * list float * list float) :=
  match entries with
  | [] => Ok acc
  | e :: rest => acc' <- decode_entry acc e ;; decode_entries acc' rest
  end.

Definition string_to_spectrum (harmonic_string : str)
  : result (list float * list float * list float) :=
  let harmonic_string :=
    if endswith harmonic_string (chr "/") then drop_last harmonic_string
    else harmonic_string in
  decode_entries ([], [], []) (split (chr "/") harmonic_string).

End Methods.
End PandaFile.

(** ** A finite excerpt of the interpreter

    Enough of the interpreter's tables to run the examples: the digits of
    Latin-1 and the Arabic-Indic digits, and the text of a few floats.
    Outside the excerpt a float has no text here (the empty string) and a
    string is read as no float.  Text files are encoded in UTF-8, which
    encodes every character but the surrogates. *)

Module Excerpt.

Definition float_texts : list (float * string) :=
  [ (0%float, "0.0"); (1%float, "1.0"); (3%float, "3.0"); (5%float, "5.0");
    (5.2%float, "5.2"); (50%float, "50.0"); (100%float, "100.0");
    (180%float, "180.0"); (230%float, "230.0"); (1e-9%float, "1e-09");
    (0.5%float, "0.5"); ((-0.25)%float, "-0.25") ]%string.

(** Texts that [float] reads although no float prints so. *)
Definition more_literals : list (string * float) :=
  [ ("0", 0%float); ("1", 1%float); ("3", 3%float); ("5", 5%float);
    ("50", 50%float); ("230", 230%float) ]%string.

Definition text_of (f : float) : str :=
  match find (fun p => PrimFloat.Leibniz.eqb (fst p) f) float_texts with
  | Some p => lit (snd p)
  | None => []
  end.

Definition read (s : str) : option float :=
  match find (fun p => str_eqb (lit (snd p)) s) float_texts with
  | Some p => Some (fst p)
  | None =>
      match find (fun p => str_eqb (lit (fst p)) s) more_literals with
      | Some p => Some (snd p)
      | None => None
      end
  end.

Definition digit (c : char) : bool :=
  (c =? 178) || (c =? 179) || (c =? 185) || ((1632 <=? c) && (c <=? 1641)).

Definition decimal (c : char) : option N :=
  if (1632 <=? c) && (c <=? 1641) then Some (c - 1632) else None.

Definition utf8 (c : char) : bool := negb ((55296 <=? c) && (c <=? 57343)).

#[export] Instance interpreter : Interpreter := {
  uni_isdigit := digit;
  uni_decimal := decimal;
  float_str := text_of;
  float_of_str := read;
  encodable := utf8
}.

End Excerpt.

(** ** The enumerations [Category], [SubCategory] and [SupplySource]

    Each member with the value the source gives it. *)

Module Enums.

Inductive Category :=
| LIGHTING
| COMPUTER_AND_COMMUNICATION
| ENTERTAINMENT
| OTHER_APPLIANCES
| GENERATION
| ELECTRIC_VEHICLES.

Definition Category_value (c : Category) : Z :=
  match c with
  | LIGHTING => 1
  | COMPUTER_AND_COMMUNICATION => 2
  | ENTERTAINMENT => 3
  | OTHER_APPLIANCES => 4
  | GENERATION => 5
  | ELECTRIC_VEHICLES => 6
  end%Z.

Inductive SubCategory :=
| INCANDESCENT_FILAMENT_LAMP
| COMPACT_FLUORESCENT_LAMP
| FLUORESCENT_LAMP_ELECTRONIC
| FLUORESCENT_LAMP_NON_ELECTRONIC
| INTEGRATED_SOLID_STATE_LAMP
| NON_INTEGRATED_SOLID_STATE_LAMP
| LIGHTING_OTHER
| DESKTOP
| LAPTOP
| MOBILE_DEVICE
| MONITOR
| PRINTER_SCANNER_MULTIFUNCTIONAL
| NETWORK_EQUIPMENT
| STORAGE
| PERMANENT_CONNECTED_PHONES
| COMPUTER_OTHER_CHARGING
| COMPUTER_OTHER_NONCHARGING
| CRT_TELEVISION_SET
| FLAT_PANEL_TELEVISION_SET
| PROJECTORS
| AUDIO_VIDEO_PHOTO_CHARGING
| AUDIO_VIDEO_PHOTO_NONCHARGING
| GAME_CONSOLE_CHARGING
| GAME_CONSOLE_NONCHARGING
| ENTERTAINMENT_OTHER_CHARGING
| ENTERTAINMENT_OTHER_NONCHARGING
| KITCHEN
| LAUNDRY
| BATHROOM
| OFFICE
| TOOLS_AND_GARDEN
| BATTERY_CHARGERS
| OTHER
| PHOTOVOLTAIC_SYSTEM
| MICRO_CHP
| SMALL_WIND_ELECTRIC_SYSTEM
| GENERATION_OTHER
| ELECTRIC_CAR
| ELECTRIC_BIKE
| ELECTRIC_MOTORCYCLE_AND_SCOOTERS
| CHARGING_STATION_WITH_INTEGRATED_RECTIFIER
| ELECTRIC_VEHICLES_OTHER.

Definition SubCategory_value (s : SubCategory) : Z * Z :=
  match s with
  | INCANDESCENT_FILAMENT_LAMP => (1, 1)
  | COMPACT_FLUORESCENT_LAMP => (1, 2)
  | FLUORESCENT_LAMP_ELECTRONIC => (1, 3)
  | FLUORESCENT_LAMP_NON_ELECTRONIC => (1, 4)
  | INTEGRATED_SOLID_STATE_LAMP => (1, 5)
  | NON_INTEGRATED_SOLID_STATE_LAMP => (1, 6)
  | LIGHTING_OTHER => (1, 7)
  | DESKTOP => (2, 1)
  | LAPTOP => (2, 2)
  | MOBILE_DEVICE => (2, 3)
  | MONITOR => (2, 4)
  | PRINTER_SCANNER_MULTIFUNCTIONAL => (2, 5)
  | NETWORK_EQUIPMENT => (2, 6)
  | STORAGE => (2, 7)
  | PERMANENT_CONNECTED_PHONES => (2, 8)
  | COMPUTER_OTHER_CHARGING => (2, 9)
  | COMPUTER_OTHER_NONCHARGING => (2, 10)
  | CRT_TELEVISION_SET => (3, 1)
  | FLAT_PANEL_TELEVISION_SET => (3, 2)
  | PROJECTORS => (3, 3)
  | AUDIO_VIDEO_PHOTO_CHARGING => (3, 4)
  | AUDIO_VIDEO_PHOTO_NONCHARGING => (3, 5)
  | GAME_CONSOLE_CHARGING => (3, 6)
  | GAME_CONSOLE_NONCHARGING => (3, 7)
  | ENTERTAINMENT_OTHER_CHARGING => (3, 8)
  | ENTERTAINMENT_OTHER_NONCHARGING => (3, 9)
  | KITCHEN => (4, 1)
  | LAUNDRY => (4, 2)
  | BATHROOM => (4, 3)
  | OFFICE => (4, 4)
  | TOOLS_AND_GARDEN => (4, 5)
  | BATTERY_CHARGERS => (4, 6)
  | OTHER => (4, 7)
  | PHOTOVOLTAIC_SYSTEM => (5, 1)
  | MICRO_CHP => (5, 2)
  | SMALL_WIND_ELECTRIC_SYSTEM => (5, 3)
  | GENERATION_OTHER => (5, 4)
  | ELECTRIC_CAR => (6, 1)
  | ELECTRIC_BIKE => (6, 2)
  | ELECTRIC_MOTORCYCLE_AND_SCOOTERS => (6, 3)
  | CHARGING_STATION_WITH_INTEGRATED_RECTIFIER => (6, 4)
  | ELECTRIC_VEHICLES_OTHER => (6, 5)
  end%Z.

Inductive SupplySource :=
| GRID_VOLTAGE
| PROGRAMMABLE_GENERATOR_SINUSOIDAL
| PROGRAMMABLE_GENERATOR_NONSINUSOIDAL_LF_HARMONICS
| PROGRAMMABLE_GENERATOR_NONSINUSOIDAL_HF_HARMONICS
| PROGRAMMABLE_GENERATOR_NONSINUSOIDAL_LF_HF_HARMONICS.

Definition SupplySource_value (s : SupplySource) : Z :=
  match s with
  | GRID_VOLTAGE => 1
  | PROGRAMMABLE_GENERATOR_SINUSOIDAL => 2
  | PROGRAMMABLE_GENERATOR_NONSINUSOIDAL_LF_HARMONICS => 3
  | PROGRAMMABLE_GENERATOR_NONSINUSOIDAL_HF_HARMONICS => 4
  | PROGRAMMABLE_GENERATOR_NONSINUSOIDAL_LF_HF_HARMONICS => 5
  end%Z.

End Enums.

(** ** Vocabulary of the specification *)

Module Spec.
Import PandaFile.

Definition ascii_letter (c : char) : bool :=
  ((65 <=? c) && (c <=? 90)) || ((97 <=? c) && (c <=? 122)).

(** The punctuation of the allowed set that is ASCII. *)
Definition listed_punctuation : str := lit "+-._:|<>?!$%&=()[]{}\/@*".

(** Letters, digits, space and the listed punctuation. *)
Definition listed_char (c : char) : bool :=
  ascii_letter c || ascii_digit c || (c =? 32) || contains c listed_punctuation.

(** The same set with the apostrophe. *)
Definition apostrophe : char := 39.
Definition listed_or_apostrophe (c : char) : bool :=
  listed_char c || (c =? apostrophe).

(** The three code points of [ALLOWED_CHARS] above ASCII. *)
Definition extra_chars : str := [226; 8364; 732].

(** The waveform block is whole or absent. *)
Definition all_or_nothing (r : record) : Prop :=
  (sample_rate r = None /\ current_data r = None /\ voltage_data r = None)
  \/ (sample_rate r <> None /\ current_data r <> None /\ voltage_data r <> None).

(** An integer as the nearest float. *)
Definition float_of_Z (z : Z) : float :=
  SF2Prim (binary_normalize prec emax z 0 false).

(** A number widened to floating point. *)
Definition as_float (n : number) : float :=
  match n with
  | PyInt z => float_of_Z z
  | PyFloat f => f
  end.

(** No comma and no slash. *)
Definition no_sep (s : str) : bool :=
  negb (contains (chr ",") s) && negb (contains (chr "/") s).

Section Texts.
Context {I : Interpreter}.

(** The text of [x] reads back as [x] widened to a float, and holds no
    separator of the spectrum format. *)
Definition reads_back (x : number) : Prop :=
  float_of_str (str_of_number x) = Some (as_float x)
  /\ no_sep (str_of_number x) = true.

(** The entries that [spectrum_to_string] keeps: those whose magnitude is
    not close to zero. *)
Definition kept_entries (orders : list number) (magnitudes : list float)
    (phases : list number) : list (number * float * number) :=
  filter (fun t => negb (isclose (snd (fst t)) 0%float))
         (zip3 orders magnitudes phases).

(** The text of one kept entry. *)
Definition entry_text (t : number * float * number) : str :=
  str_of_number (fst (fst t)) ++ lit "," ++ float_str (snd (fst t))
  ++ lit "," ++ str_of_number (snd t).

(** Every number of the entry reads back from its text. *)
Definition entry_reads_back (t : number * float * number) : Prop :=
  reads_back (fst (fst t)) /\ reads_back (PyFloat (snd (fst t)))
  /\ reads_back (snd t).

End Texts.

(** An entry of a spectrum string with the three given fields. *)
Definition entry_of (t : str * str * str) : str :=
  fst (fst t) ++ chr "," :: snd (fst t) ++ chr "," :: snd t.

(** The three fields hold no comma and no slash. *)
Definition fields_ok (t : str * str * str) : Prop :=
  no_sep (fst (fst t)) = true /\ no_sep (snd (fst t)) = true
  /\ no_sep (snd t) = true.

(** [s.count(c)] for a one-character [c]. *)
Definition occurrences (c : char) (s : str) : nat :=
  List.length (filter (N.eqb c) s).

(** A line that the loop of [from_txt] passes over: once stripped it does
    not end in a closing bracket, and it holds no equals sign. *)
Definition passed_over (line : str) : bool :=
  negb (endswith (strip line) (chr "]")) && negb (contains (chr "=") line).

(** The variable [section] of the loop names a section of [data]. *)
Definition section_open (st : scan_state) : Prop :=
  match snd st with
  | Some s => dict_mem (fst st) s = true
  | None => True
  end.

(** A value that a line [Key = value;] carries unchanged: it has no equals
    sign, no semicolon and no line break, and no blank at either end. *)
Definition carried (v : str) : Prop :=
  contains (chr "=") v = false /\ contains (chr ";") v = false
  /\ contains LF v = false /\ contains CR v = false /\ strip v = v.

(** The line of a section header, as [to_txt] writes it. *)
Definition header_line (name : string) : str :=
  lit "[" ++ lit name ++ lit "]" ++ nl.

(** The lines of a section: its header and one line for each key. *)
Definition render_section (sec : string * list (string * str)) : list str :=
  header_line (fst sec) :: map (fun kv => key_line (fst kv) (snd kv)) (snd sec).

(** The text of a file with the given sections, after the line of the
    format identifier. *)
Definition render (sections : list (string * list (string * str))) : str :=
  List.concat ((lit "TUDHDB_TXT_v01" ++ nl) :: flat_map render_section sections).

(** The dictionary of a section, and the dictionary of the sections. *)
Definition section_dict (kvs : list (string * str)) : dict str :=
  fold_left (fun d kv => dict_set d (lit (fst kv)) (snd kv)) kvs [].

Definition data_of (sections : list (string * list (string * str)))
  : dict (dict str) :=
  fold_left (fun data sec => dict_set data (lit (fst sec)) (section_dict (snd sec)))
            sections [].

(** A key that comes back from its line: no equals sign and no line break
    in it, and no blank around it. *)
Definition key_ok (k : string) : bool :=
  negb (contains (chr "=") (lit k)) && negb (contains LF (lit k))
  && negb (contains CR (lit k)) && str_eqb (strip (lit k ++ [32])) (lit k).

(** A section name that comes back from its header line. *)
Definition name_ok (n : string) : bool :=
  negb (contains LF (lit n)) && negb (contains CR (lit n))
  && str_eqb (strip_chars (lit "[]") (strip (header_line n))) (lit n).

(** A section whose name and keys come back, with values that their
    lines carry. *)
Definition section_ok (sec : string * list (string * str)) : Prop :=
  name_ok (fst sec) = true
  /\ Forall (fun kv => key_ok (fst kv) = true /\ carried (snd kv)) (snd sec).

(** A character that is no blank, no equals sign and no semicolon. *)
Definition clean (c : char) : bool :=
  negb (isspace c) && negb (c =? chr "=") && negb (c =? chr ";").

(** A text without blanks and without the separators of the file format,
    and not empty. *)
Definition token (s : str) : Prop :=
  s <> []
  /\ forallb (fun c => negb (isspace c) && negb (c =? chr "=")
                       && negb (c =? chr ";") && negb (c =? chr ",")) s = true.

Section Carried.
Context {I : Interpreter}.

(** The rules of a validated attribute: digits only where required,
    allowed characters only, and no longer than [max]. *)
Definition field_ok (digits_only : bool) (max : N) (v : str) : Prop :=
  (digits_only = true -> isdigit v = true)
  /\ Forall (fun c => contains c ALLOWED_CHARS = true) v
  /\ N.of_nat (List.length v) <= max.

(** The rules of the ten validated attributes of a record, with the
    lengths of [MAX_LENGTHS]. *)
Definition valid_record (r : record) : Prop :=
  field_ok true 4 (lab_id r)
  /\ field_ok true 4 (user_id r)
  /\ field_ok true 1 (category r)
  /\ field_ok true 2 (sub_category r)
  /\ field_ok false 24 (unique_id r)
  /\ field_ok false 64 (manufacturer r)
  /\ field_ok false 64 (product_code r)
  /\ field_ok false 2 (sell_country r)
  /\ field_ok true 4 (sell_year r)
  /\ field_ok false 500 (description r).

(** The sections of the file that [to_txt] writes for a record, each with
    its keys and their values, in the order of the lines. *)
Definition sections_of (r : record) : list (string * list (string * str)) :=
  [ ("User Detail",
     [ ("Lab_ID", lab_id r); ("User_ID", user_id r) ]);
    ("EUT",
     [ ("Category", category r);
       ("Sub_Category", sub_category r);
       ("Unique_ID", unique_id r);
       ("Manufacturer", manufacturer r);
       ("Product_code", product_code r);
       ("Sell_Country", sell_country r);
       ("Sell_Year", sell_year r);
       ("Rated_Power", str_of_value (rated_power r));
       ("Nominal_Frequency", str_of_number (nominal_frequency r));
       ("Nominal_Voltage", str_of_number (nominal_voltage r));
       ("Supply_Source", str_of_int (supply_source r));
       ("Description", description r) ]);
    ("Harmonics",
     [ ("Current_Harmonics", current_harmonics r);
       ("Voltage_Harmonics", voltage_harmonics r) ]) ]%string
  ++ match sample_rate r, current_data r, voltage_data r with
     | Some rate, Some c, Some v =>
         [ ("Waveforms",
            [ ("Sampling_Rate", str_of_int rate);
              ("Current_Data", join (lit ",") (map float_str c));
              ("Voltage_Data", join (lit ",") (map float_str v)) ]) ]%string
     | _, _, _ => []
     end.

(** The record that [from_txt] builds from the file of [r]: the rated
    power as its text, the nominal frequency as the float [f] of its
    text. *)
Definition read_back (r : record) (f : float) : record := {|
  lab_id := lab_id r;
  user_id := user_id r;
  category := category r;
  sub_category := sub_category r;
  unique_id := unique_id r;
  manufacturer := manufacturer r;
  product_code := product_code r;
  sell_country := sell_country r;
  sell_year := sell_year r;
  rated_power := VStr (str_of_value (rated_power r));
  nominal_frequency := PyFloat f;
  nominal_voltage := nominal_voltage r;
  supply_source := supply_source r;
  description := description r;
  current_harmonics := current_harmonics r;
  voltage_harmonics := voltage_harmonics r;
  sample_rate := sample_rate r;
  current_data := current_data r;
  voltage_data := voltage_data r
|}.

(** A float whose text is carried by a line and reads back. *)
Definition float_carried (f : float) : Prop :=
  float_of_str (float_str f) = Some f /\ carried (float_str f).

(** A waveform sample whose text is a token and reads back. *)
Definition sample_carried (f : float) : Prop :=
  float_of_str (float_str f) = Some f /\ token (float_str f).

(** The waveform arguments that the file carries: none of them, or a
    sampling rate with two sequences of samples that are not empty. *)
Definition waveform_carried (rate : option Z)
    (current voltage : option (list float)) : Prop :=
  match rate, current, voltage with
  | None, None, None => True
  | Some _, Some c, Some v =>
      c <> [] /\ v <> [] /\ Forall sample_carried c /\ Forall sample_carried v
  | _, _, _ => False
  end.

End Carried.

End Spec.

(** ** Sample records *)

Module Examples.
Import PandaFile.

(** A record with a waveform block. *)
Definition sample : record := {|
  lab_id := lit "1234";
  user_id := lit "12";
  category := lit "3";
  sub_category := lit "14";
  unique_id := lit "uid-1";
  manufacturer := lit "ACME";
  product_code := lit "PC 1";
  sell_country := lit "DE";
  sell_year := lit "2020";
  rated_power := VStr (lit "NA");
  nominal_frequency := PyFloat 50%float;
  nominal_voltage := PyInt 230;
  supply_source := 1%Z;
  description := lit "charger";
  current_harmonics := lit "1,230.0,0.0/5,5.2,180.0";
  voltage_harmonics := lit "1,230.0,0.0";
  sample_rate := Some 1000%Z;
  current_data := Some [0.5%float; (-0.25)%float];
  voltage_data := Some [230%float]
|}.

(** The text that [to_txt] writes for [sample]. *)
Definition sample_text : str :=
  lit "TUDHDB_TXT_v01" ++ nl
  ++ lit "[User Detail]" ++ nl
  ++ lit "Lab_ID = 1234;" ++ nl
  ++ lit "User_ID = 12;" ++ nl
  ++ lit "[EUT]" ++ nl
  ++ lit "Category = 3;" ++ nl
  ++ lit "Sub_Category = 14;" ++ nl
  ++ lit "Unique_ID = uid-1;" ++ nl
  ++ lit "Manufacturer = ACME;" ++ nl
  ++ lit "Product_code = PC 1;" ++ nl
  ++ lit "Sell_Country = DE;" ++ nl
  ++ lit "Sell_Year = 2020;" ++ nl
  ++ lit "Rated_Power = NA;" ++ nl
  ++ lit "Nominal_Frequency = 50.0;" ++ nl
  ++ lit "Nominal_Voltage = 230;" ++ nl
  ++ lit "Supply_Source = 1;" ++ nl
  ++ lit "Description = charger;" ++ nl
  ++ lit "[Harmonics]" ++ nl
  ++ lit "Current_Harmonics = 1,230.0,0.0/5,5.2,180.0;" ++ nl
  ++ lit "Voltage_Harmonics = 1,230.0,0.0;" ++ nl
  ++ lit "[Waveforms]" ++ nl
  ++ lit "Sampling_Rate = 1000;" ++ nl
  ++ lit "Current_Data = 0.5,-0.25;" ++ nl
  ++ lit "Voltage_Data = 230.0;" ++ nl.

(** The dictionary that the scan of [sample_text] builds. *)
Definition sample_data : dict (dict str) :=
  [ (lit "User Detail",
     [ (lit "Lab_ID", lit "1234"); (lit "User_ID", lit "12") ]);
    (lit "EUT",
     [ (lit "Category", lit "3"); (lit "Sub_Category", lit "14");
       (lit "Unique_ID", lit "uid-1"); (lit "Manufacturer", lit "ACME");
       (lit "Product_code", lit "PC 1"); (lit "Sell_Country", lit "DE");
       (lit "Sell_Year", lit "2020"); (lit "Rated_Power", lit "NA");
       (lit "Nominal_Frequency", lit "50.0");
       (lit "Nominal_Voltage", lit "230"); (lit "Supply_Source", lit "1");
       (lit "Description", lit "charger") ]);
    (lit "Harmonics",
     [ (lit "Current_Harmonics", lit "1,230.0,0.0/5,5.2,180.0");
       (lit "Voltage_Harmonics", lit "1,230.0,0.0") ]);
    (lit "Waveforms",
     [ (lit "Sampling_Rate", lit "1000");
       (lit "Current_Data", lit "0.5,-0.25");
       (lit "Voltage_Data", lit "230.0") ]) ].

(** [sample] with a rated power given as a number. *)
Definition sample_power (p : value) : record := {|
  lab_id := lab_id sample;
  user_id := user_id sample;
  category := category sample;
  sub_category := sub_category sample;
  unique_id := unique_id sample;
  manufacturer := manufacturer sample;
  product_code := product_code sample;
  sell_country := sell_country sample;
  sell_year := sell_year sample;
  rated_power := p;
  nominal_frequency := nominal_frequency sample;
  nominal_voltage := nominal_voltage sample;
  supply_source := supply_source sample;
  description := description sample;
  current_harmonics := current_harmonics sample;
  voltage_harmonics := voltage_harmonics sample;
  sample_rate := sample_rate sample;
  current_data := current_data sample;
  voltage_data := voltage_data sample
|}.

(** [sample] with another description. *)
Definition sample_described (d : str) : record := {|
  lab_id := lab_id sample;
  user_id := user_id sample;
  category := category sample;
  sub_category := sub_category sample;
  unique_id := unique_id sample;
  manufacturer := manufacturer sample;
  product_code := product_code sample;
  sell_country := sell_country sample;
  sell_year := sell_year sample;
  rated_power := rated_power sample;
  nominal_frequency := nominal_frequency sample;
  nominal_voltage := nominal_voltage sample;
  supply_source := supply_source sample;
  description := d;
  current_harmonics := current_harmonics sample;
  voltage_harmonics := voltage_harmonics sample;
  sample_rate := sample_rate sample;
  current_data := current_data sample;
  voltage_data := voltage_data sample
|}.


(** The constructor call on the attributes of a record ([category] and
    [sub_category] given as integers). *)
Definition construct {I : Interpreter} (category sub_category : Z) (r : record)
  : result record :=
  __init__ (lab_id r) (user_id r) category sub_category (unique_id r)
           (manufacturer r) (product_code r) (sell_country r) (sell_year r)
           (rated_power r) (nominal_frequency r) (nominal_voltage r)
           (supply_source r) (description r) (current_harmonics r)
           (voltage_harmonics r) (sample_rate r) (current_data r)
           (voltage_data r).

End Examples.

(** * Properties *)

Import PandaFile Spec Examples.
Local Open Scope py_scope.

(** ** Characters and validation *)

Lemma below_128_listed (c : char) :
  c < 128 -> In c (map N.of_nat (seq 0 128)).
Proof.
  intros H. rewrite <- (N2Nat.id c). apply in_map, in_seq. lia.
Qed.

Lemma allowed_ascii (c : char) :
  c < 128 -> contains c ALLOWED_CHARS = listed_char c.
Proof.
  intros H.
  assert (T : forallb (fun c => Bool.eqb (contains c ALLOWED_CHARS) (listed_char c))
                      (map N.of_nat (seq 0 128)) = true) by (vm_compute; reflexivity).
  rewrite forallb_forall in T.
  apply eqb_prop, T, below_128_listed, H.
Qed.

Lemma contains_spec (c : char) (s : str) : contains c s = true <-> In c s.
Proof.
  unfold contains. rewrite existsb_exists. split.
  - intros [x [Hin Hx]]. apply N.eqb_eq in Hx. now subst.
  - intros Hin. exists c. split; [assumption | apply N.eqb_refl].
Qed.

Lemma contains_app (c : char) (a b : str) :
  contains c (a ++ b) = contains c a || contains c b.
Proof. apply existsb_app. Qed.

Lemma listed_char_ascii (c : char) : listed_char c = true -> c < 128.
Proof.
  unfold listed_char, ascii_letter, ascii_digit. intros H.
  apply orb_prop in H. destruct H as [H | H].
  - apply orb_prop in H. destruct H as [H | H].
    + apply orb_prop in H. destruct H as [H | H].
      * apply orb_prop in H.
        destruct H as [H | H]; apply andb_prop in H; destruct H as [_ H];
          apply N.leb_le in H; lia.
      * apply andb_prop in H. destruct H as [_ H]. apply N.leb_le in H. lia.
    + apply N.eqb_eq in H. lia.
  - apply contains_spec in H.
    assert (T : forallb (fun x => x <? 128) listed_punctuation = true) by reflexivity.
    rewrite forallb_forall in T. apply N.ltb_lt, T, H.
Qed.

(** The allowed set, exactly: the listed ASCII characters and the three
    code points above ASCII that the literal holds. *)
Lemma allowed_chars_exactly (c : char) :
  contains c ALLOWED_CHARS = listed_char c || contains c extra_chars.
Proof.
  destruct (N.ltb_spec c 128) as [H | H].
  - rewrite (allowed_ascii c H).
    replace (contains c extra_chars) with false; [now rewrite orb_false_r |].
    symmetry. apply not_true_is_false. rewrite contains_spec.
    unfold extra_chars. simpl. lia.
  - replace (listed_char c) with false.
    2:{ symmetry. apply not_true_is_false. intros L.
        apply listed_char_ascii in L. lia. }
    unfold ALLOWED_CHARS. rewrite !contains_app.
    replace (contains c (lit "ABCDEFGHIJKLMNOPQRSTUVWXYZabcdefghijklmnopqrstuvwxyz+-._:|<>?!$%&=()[]{}\/@"))
      with false.
    2:{ symmetry. apply not_true_is_false. rewrite contains_spec. intros Hin.
        assert (T : forallb (fun x => x <? 128)
                 (lit "ABCDEFGHIJKLMNOPQRSTUVWXYZabcdefghijklmnopqrstuvwxyz+-._:|<>?!$%&=()[]{}\/@") = true)
          by reflexivity.
        rewrite forallb_forall in T. apply T, N.ltb_lt in Hin. lia. }
    replace (contains c (lit "*0123456789 ")) with false.
    2:{ symmetry. apply not_true_is_false. rewrite contains_spec. intros Hin.
        assert (T : forallb (fun x => x <? 128) (lit "*0123456789 ") = true)
          by reflexivity.
        rewrite forallb_forall in T. apply T, N.ltb_lt in Hin. lia. }
    now rewrite orb_false_r.
Qed.

Lemma forallb_false_exists {A} (p : A -> bool) (l : list A) :
  forallb p l = false -> exists x, In x l /\ p x = false.
Proof.
  induction l as [| a l IH]; simpl; [discriminate |].
  destruct (p a) eqn:E; simpl.
  - intros H. destruct (IH H) as [x [Hin Hx]]. exists x. auto.
  - intros _. exists a. auto.
Qed.

Section Validation.
Context {I : Interpreter}.

(** The three checks of [_validate_property], once the maximum length of
    the property is known. *)
Lemma validate_unfold (name value : str) (digits_only : bool) (max : N) :
  dict_get MAX_LENGTHS name = Some max ->
  _validate_property name value digits_only =
    if digits_only && negb (isdigit value) then
      Err (ValueError (name ++ lit " must contain only digits."))
    else if existsb (fun c => negb (contains c ALLOWED_CHARS)) value then
      Err (ValueError (lit "Disallowed characters found in " ++ name ++ lit "."))
    else if max <? N.of_nat (List.length value) then
      Err (ValueError (name ++ lit " exceeds maximum length of "
                       ++ str_of_N max ++ lit " characters."))
    else Ok value.
Proof.
  intros H. unfold _validate_property, getitem. rewrite H. reflexivity.
Qed.

Lemma isdigit_false_iff (value : str) :
  isdigit value = false <->
  value = [] \/ exists c, In c value /\ isdigit_char c = false.
Proof.
  destruct value as [| x value]; [simpl; intuition |].
  change (isdigit (x :: value)) with (forallb isdigit_char (x :: value)).
  split.
  - intros H. right. now apply forallb_false_exists.
  - intros [H | [c [Hin Hc]]]; [discriminate |].
    apply not_true_is_false. intros A. rewrite forallb_forall in A.
    rewrite (A c Hin) in Hc. discriminate.
Qed.

Lemma bad_char_iff (value : str) :
  existsb (fun c => negb (contains c ALLOWED_CHARS)) value = true <->
  exists c, In c value /\ contains c ALLOWED_CHARS = false.
Proof.
  rewrite existsb_exists. split; intros [c [Hin Hc]]; exists c; split;
    try assumption; now apply negb_true_iff.
Qed.

End Validation.

(** C3 (as amended). The character-set check of a restricted-text field
    accepts exactly the literal set of the source: every string over the
    ASCII letters, the digits, the space, the listed punctuation (which has
    no apostrophe) and the three code points above ASCII passes, length
    permitting, and a string with any character outside this set is
    rejected with the disallowed-character error. *)
Theorem charset_check {I : Interpreter} (name value : str) (max : N) :
  dict_get MAX_LENGTHS name = Some max ->
  (Forall (fun c => listed_char c || contains c extra_chars = true) value ->
   N.of_nat (List.length value) <= max ->
   _validate_property name value false = Ok value)
  /\ (forall c, In c value ->
      listed_char c || contains c extra_chars = false ->
      _validate_property name value false =
        Err (ValueError (lit "Disallowed characters found in " ++ name ++ lit "."))).
Proof.
  intros Hmax. rewrite (validate_unfold name value false max Hmax).
  cbn [andb]. split.
  - intros Hall Hlen.
    replace (existsb (fun c => negb (contains c ALLOWED_CHARS)) value) with false.
    + apply N.ltb_ge in Hlen. now rewrite Hlen.
    + symmetry. apply not_true_is_false. rewrite bad_char_iff.
      intros [c [Hin Hc]]. rewrite Forall_forall in Hall.
      specialize (Hall c Hin). rewrite <- allowed_chars_exactly in Hall.
      congruence.
  - intros c Hin Hc. rewrite <- allowed_chars_exactly in Hc.
    replace (existsb (fun c => negb (contains c ALLOWED_CHARS)) value) with true;
      [reflexivity |].
    symmetry. apply bad_char_iff. now exists c.
Qed.

Lemma charset_check_witness :
  @_validate_property Excerpt.interpreter (lit "unique_id") (lit "A-1 b*") false
    = Ok (lit "A-1 b*")
  /\ @_validate_property Excerpt.interpreter (lit "unique_id") (lit "a;b") false
    = Err (ValueError (lit "Disallowed characters found in unique_id.")).
Proof.
  split.
  - apply (charset_check (I := Excerpt.interpreter) (lit "unique_id") (lit "A-1 b*") 24 eq_refl).
    + apply Forall_forall. intros c Hc.
      apply (proj1 (forallb_forall
                      (fun c => listed_char c || contains c extra_chars) (lit "A-1 b*"))
                   eq_refl c Hc).
    + vm_compute. discriminate.
  - apply (proj2 (charset_check (I := Excerpt.interpreter)
                    (lit "unique_id") (lit "a;b") 24 eq_refl) 59).
    + vm_compute. auto.
    + reflexivity.
Defined.

(** C3 as stated fails: the apostrophe is in the set the claim lists and
    is rejected, and a code point outside that set is accepted. *)
Lemma apostrophe_rejected :
  listed_or_apostrophe apostrophe = true
  /\ @_validate_property Excerpt.interpreter (lit "unique_id") [apostrophe] false
     = Err (ValueError (lit "Disallowed characters found in unique_id."))
  /\ listed_or_apostrophe 8364 = false
  /\ @_validate_property Excerpt.interpreter (lit "unique_id") [8364] false
     = Ok [8364].
Proof. repeat split; reflexivity. Qed.

(** C4 (as amended). For a property with a maximum length the checks run
    in the order digits, characters, length, and the first one violated
    decides the error, whose message names the property and the rule.  The
    digit check is [str.isdigit]: an empty value, or one with an ASCII
    character that is not one of 0 to 9, fails it.  A digit of another
    script or a superscript digit passes it, and the value is rejected by
    the character check instead, when none of the three allowed code
    points above ASCII is a digit: a digit-only value that is empty or has
    a character outside 0 to 9 is rejected by one of the two checks. *)
Theorem validation_order {I : Interpreter} (name value : str)
    (digits_only : bool) (max : N) :
  dict_get MAX_LENGTHS name = Some max ->
  let not_digits :=
    digits_only = true
    /\ (value = [] \/ exists c, In c value /\ isdigit_char c = false) in
  let bad_char := exists c, In c value /\ contains c ALLOWED_CHARS = false in
  let too_long := max < N.of_nat (List.length value) in
  let digits_error := Err (ValueError (name ++ lit " must contain only digits.")) in
  let chars_error :=
    Err (ValueError (lit "Disallowed characters found in " ++ name ++ lit ".")) in
  (not_digits ->
   _validate_property name value digits_only = digits_error)
  /\ (~ not_digits -> bad_char ->
      _validate_property name value digits_only = chars_error)
  /\ (~ not_digits -> ~ bad_char -> too_long ->
      _validate_property name value digits_only =
        Err (ValueError (name ++ lit " exceeds maximum length of "
                         ++ str_of_N max ++ lit " characters.")))
  /\ (~ not_digits -> ~ bad_char -> ~ too_long ->
      _validate_property name value digits_only = Ok value)
  /\ (digits_only = true ->
      value = [] \/ (exists c, In c value /\ c < 128 /\ ascii_digit c = false) ->
      _validate_property name value digits_only = digits_error)
  /\ (digits_only = true ->
      (forall c, In c extra_chars -> uni_isdigit c = false) ->
      (exists c, In c value /\ ascii_digit c = false) ->
      _validate_property name value digits_only = digits_error
      \/ _validate_property name value digits_only = chars_error).
Proof.
  intros Hmax not_digits bad_char too_long digits_error chars_error.
  rewrite (validate_unfold name value digits_only max Hmax).
  assert (D : digits_only && negb (isdigit value) = true <-> not_digits).
  { unfold not_digits. rewrite andb_true_iff, negb_true_iff, isdigit_false_iff.
    reflexivity. }
  assert (B : existsb (fun c => negb (contains c ALLOWED_CHARS)) value = true
              <-> bad_char) by apply bad_char_iff.
  assert (L : (max <? N.of_nat (List.length value)) = true <-> too_long)
    by apply N.ltb_lt.
  assert (A : digits_only = true ->
              value = [] \/ (exists c, In c value /\ c < 128 /\ ascii_digit c = false) ->
              not_digits).
  { intros Hd [E | [c [Hin [Lt Hc]]]]; (split; [exact Hd |]); [now left |].
    right. exists c. split; [exact Hin |]. unfold isdigit_char.
    apply N.ltb_lt in Lt. now rewrite Lt. }
  assert (U : digits_only = true ->
              (forall c, In c extra_chars -> uni_isdigit c = false) ->
              (exists c, In c value /\ ascii_digit c = false) ->
              not_digits \/ bad_char).
  { intros Hd HI [c [Hin Hc]].
    destruct (isdigit_char c) eqn:Dc.
    - right. exists c. split; [exact Hin |].
      unfold isdigit_char in Dc. destruct (N.ltb_spec c 128) as [Lt | Ge];
        [congruence |].
      rewrite allowed_chars_exactly. apply orb_false_iff. split.
      + apply not_true_is_false. intros Lc. apply listed_char_ascii in Lc. lia.
      + apply not_true_is_false. intros Ec. apply contains_spec in Ec.
        rewrite (HI c Ec) in Dc. discriminate Dc.
    - left. split; [exact Hd |]. right. now exists c. }
  destruct (digits_only && negb (isdigit value));
    destruct (existsb (fun c => negb (contains c ALLOWED_CHARS)) value);
    destruct (max <? N.of_nat (List.length value));
    repeat match goal with |- _ /\ _ => split end; intros;
    try reflexivity; try (left; reflexivity); try (right; reflexivity);
    repeat match goal with
           | H : ~ _ |- _ => exfalso; apply H; tauto
           | H : ?P, E : _ <-> ?P |- _ =>
               apply E in H; discriminate
           | Hd : digits_only = true, H : _ \/ _ |- _ =>
               apply (A Hd) in H
           | Hd : digits_only = true,
             HI : forall c, In c extra_chars -> uni_isdigit c = false,
             H : exists c, _ |- _ =>
               destruct (U Hd HI H) as [H' | H']; clear H
           end.
Qed.

Lemma validation_order_witness :
  @_validate_property Excerpt.interpreter (lit "user_id") (lit "12a45;") true
    = Err (ValueError (lit "user_id must contain only digits.")).
Proof.
  apply (proj1 (proj2 (proj2 (proj2 (proj2
           (validation_order (I := Excerpt.interpreter)
              (lit "user_id") (lit "12a45;") true 4 eq_refl)))))).
  - reflexivity.
  - right. exists 97. split; [| split; [vm_compute; reflexivity | reflexivity]].
    vm_compute. auto.
Defined.

(** C4 as stated fails: the superscript two and the Arabic-Indic one are
    no digits from 0 to 9, yet the digit check passes them; the value is
    rejected by the character check, under another message. *)
Lemma other_digits_pass_digit_check :
  ascii_digit 178 = false
  /\ @isdigit Excerpt.interpreter [178] = true
  /\ @_validate_property Excerpt.interpreter (lit "user_id") [178] true
     = Err (ValueError (lit "Disallowed characters found in user_id."))
  /\ ascii_digit 1633 = false
  /\ @isdigit Excerpt.interpreter [49; 1633] = true
  /\ @_validate_property Excerpt.interpreter (lit "user_id") [49; 1633] true
     = Err (ValueError (lit "Disallowed characters found in user_id.")).
Proof. repeat split; reflexivity. Qed.

(** ** The spectrum codec *)

Lemma zip3_middle {A B C} (a : list A) (b : list B) (c : list C) t :
  In t (zip3 a b c) -> In (snd (fst t)) b.
Proof.
  unfold zip3. rewrite in_map_iff. intros [[x [y z]] [E Hin]]. subst t. simpl.
  apply in_combine_r in Hin. now apply in_combine_l in Hin.
Qed.

Lemma filter_nil {A} (p : A -> bool) (l : list A) :
  (forall x, In x l -> p x = false) -> filter p l = [].
Proof.
  induction l as [| a l IH]; simpl; intros H; [reflexivity |].
  rewrite (H a (or_introl eq_refl)). apply IH. intros x Hx. apply H. now right.
Qed.

(** C9. The lengths are compared before anything else, and unequal
    lengths give the length error; when every magnitude is close to zero
    the filter leaves nothing, the unpacking of the transposed entries
    finds no value for its three targets, and the call raises: no string is
    returned. *)
Theorem encode_failures {I : Interpreter}
    (orders : list number) (magnitudes : list float) (phases : list number) :
  (List.length orders <> List.length magnitudes
   \/ List.length orders <> List.length phases ->
   spectrum_to_string orders magnitudes phases =
     Err (ValueError (lit "Length of harmonics, magnitudes and phases must be equal.")))
  /\ (List.length orders = List.length magnitudes ->
      List.length orders = List.length phases ->
      Forall (fun m => isclose m 0%float = true) magnitudes ->
      spectrum_to_string orders magnitudes phases = Err (ValueError_unpack 3 0)).
Proof.
  unfold spectrum_to_string. split.
  - intros H.
    replace (negb (List.length orders =? List.length magnitudes)%nat
             || negb (List.length orders =? List.length phases)%nat) with true;
      [reflexivity |].
    symmetry. apply orb_true_iff.
    destruct H as [H | H]; [left | right];
      apply negb_true_iff, Nat.eqb_neq, H.
  - intros H1 H2 Hz.
    rewrite <- H1, <- H2, !Nat.eqb_refl. cbn [negb orb].
    rewrite filter_nil; [reflexivity |].
    intros t Ht. apply zip3_middle in Ht. rewrite Forall_forall in Hz.
    now rewrite (Hz _ Ht).
Qed.

Lemma encode_failures_witness :
  @spectrum_to_string Excerpt.interpreter [PyInt 1] [0%float] [PyFloat 0%float]
    = Err (ValueError_unpack 3 0)
  /\ @spectrum_to_string Excerpt.interpreter [PyInt 1; PyInt 3] [0%float] [PyFloat 0%float]
    = Err (ValueError (lit "Length of harmonics, magnitudes and phases must be equal.")).
Proof.
  split.
  - apply (encode_failures (I := Excerpt.interpreter)
             [PyInt 1] [0%float] [PyFloat 0%float]);
      [reflexivity | reflexivity |].
    constructor; [reflexivity | constructor].
  - apply (encode_failures (I := Excerpt.interpreter)
             [PyInt 1; PyInt 3] [0%float] [PyFloat 0%float]).
    left. simpl. discriminate.
Defined.

(** C10. The empty string is no encoding of an empty spectrum: it splits
    into one empty entry, whose single field cannot fill the three targets
    of the unpacking, and [string_to_spectrum] raises. *)
Theorem decode_empty_string {I : Interpreter} :
  string_to_spectrum [] = Err (ValueError_unpack 3 1).
Proof. reflexivity. Qed.

(** *** Splitting and joining *)

Lemma split_not_nil (sep : char) (s : str) : split sep s <> [].
Proof.
  induction s as [| c s IH]; simpl; [discriminate |].
  destruct (c =? sep); [discriminate |].
  destruct (split sep s); [contradiction | discriminate].
Qed.

Lemma split_without (sep : char) (s : str) :
  contains sep s = false -> split sep s = [s].
Proof.
  induction s as [| c s IH]; simpl; intros H; [reflexivity |].
  apply orb_false_iff in H. destruct H as [Hc Hs].
  rewrite N.eqb_sym in Hc. rewrite Hc, (IH Hs). reflexivity.
Qed.

Lemma split_at_first (sep : char) (a b : str) :
  contains sep a = false -> split sep (a ++ sep :: b) = a :: split sep b.
Proof.
  induction a as [| c a IH]; simpl; intros H.
  - now rewrite N.eqb_refl.
  - apply orb_false_iff in H. destruct H as [Hc Ha].
    rewrite N.eqb_sym in Hc. rewrite Hc, (IH Ha). reflexivity.
Qed.

Lemma split_join (sep : char) (pieces : list str) :
  pieces <> [] ->
  Forall (fun p => contains sep p = false) pieces ->
  split sep (join [sep] pieces) = pieces.
Proof.
  induction pieces as [| p ps IH]; [contradiction |].
  intros _ H. inversion H as [| ? ? Hp Hps]; subst.
  destruct ps as [| q ps].
  - simpl. now apply split_without.
  - change (join [sep] (p :: q :: ps)) with (p ++ sep :: join [sep] (q :: ps)).
    rewrite (split_at_first sep p _ Hp). f_equal. apply IH; [discriminate | assumption].
Qed.

Lemma endswith_app (a b : str) (c : char) :
  b <> [] -> endswith (a ++ b) c = endswith b c.
Proof.
  intros Hb. unfold endswith. rewrite rev_app_distr.
  destruct (rev b) as [| x r] eqn:E; [| reflexivity].
  apply (f_equal (@rev char)) in E. rewrite rev_involutive in E. contradiction.
Qed.

Lemma endswith_contains (s : str) (c : char) :
  endswith s c = true -> contains c s = true.
Proof.
  unfold endswith. destruct (rev s) as [| x r] eqn:E; [discriminate |].
  intros H. apply N.eqb_eq in H. subst x. apply contains_spec, in_rev.
  rewrite E. now left.
Qed.

Lemma join_last (sep : str) (pieces : list str) (p : str) :
  exists pre, join sep (pieces ++ [p]) = pre ++ p.
Proof.
  induction pieces as [| q qs [pre IH]].
  - now exists [].
  - exists (q ++ sep ++ pre).
    change ((q :: qs) ++ [p]) with (q :: (qs ++ [p])).
    destruct (qs ++ [p]) as [| x xs] eqn:E.
    + destruct qs; discriminate.
    + change (join sep (q :: x :: xs)) with (q ++ sep ++ join sep (x :: xs)).
      rewrite IH. now rewrite <- !app_assoc.
Qed.

(** Appending each piece with a terminator and dropping the last
    character is joining. *)
Lemma drop_last_terminated (sep : char) (pieces : list str) :
  pieces <> [] ->
  drop_last (List.concat (map (fun p => p ++ [sep]) pieces)) = join [sep] pieces.
Proof.
  unfold drop_last.
  induction pieces as [| p ps IH]; [contradiction |]. intros _.
  destruct ps as [| q ps].
  - simpl. rewrite app_nil_r. apply removelast_last.
  - change (List.concat (map (fun p => p ++ [sep]) (p :: q :: ps)))
      with ((p ++ [sep]) ++ List.concat (map (fun p => p ++ [sep]) (q :: ps))).
    rewrite removelast_app.
    + rewrite IH by discriminate. now rewrite <- app_assoc.
    + simpl. destruct q; discriminate.
Qed.

Lemma fold_left_append {A} (f : A -> str) (l : list A) (acc : str) :
  fold_left (fun acc t => acc ++ f t) l acc = acc ++ List.concat (map f l).
Proof.
  revert acc. induction l as [| a l IH]; intros acc; simpl.
  - now rewrite app_nil_r.
  - rewrite IH. now rewrite app_assoc.
Qed.

Lemma fold_left_ext {A B} (g g' : A -> B -> A) (l : list B) (a : A) :
  (forall x y, g x y = g' x y) -> fold_left g l a = fold_left g' l a.
Proof.
  intros E. revert a. induction l as [| b l IH]; intros a; simpl;
    [reflexivity | now rewrite E, IH].
Qed.

Lemma zip3_of_maps {A B C} (l : list (A * B * C)) :
  zip3 (map (fun t => fst (fst t)) l) (map (fun t => snd (fst t)) l)
       (map (fun t => snd t) l) = l.
Proof.
  unfold zip3. induction l as [| [[a b] c] l IH]; simpl; [reflexivity |].
  now rewrite IH.
Qed.

Lemma zip3_has_middle {A B C} (a : list A) (b : list B) (c : list C) (y : B) :
  List.length a = List.length b -> List.length a = List.length c ->
  In y b -> exists t, In t (zip3 a b c) /\ snd (fst t) = y.
Proof.
  revert a c. induction b as [| y0 b IH]; intros a c Ha Hc Hy; [contradiction |].
  destruct a as [| x a]; [discriminate |]. destruct c as [| z c]; [discriminate |].
  destruct Hy as [-> | Hy].
  - exists (x, y, z). split; [now left | reflexivity].
  - destruct (IH a c) as [t [Hin Ht]]; simpl in *; try lia; try assumption.
    exists t. split; [now right | assumption].
Qed.

Section SpectrumRoundTrip.
Context {I : Interpreter}.

Lemma encode_kept (orders : list number) (magnitudes : list float)
    (phases : list number) :
  List.length orders = List.length magnitudes ->
  List.length orders = List.length phases ->
  kept_entries orders magnitudes phases <> [] ->
  spectrum_to_string orders magnitudes phases =
    Ok (join (lit "/") (map entry_text (kept_entries orders magnitudes phases))).
Proof.
  intros H1 H2 Hk. unfold spectrum_to_string.
  rewrite <- H1, <- H2, !Nat.eqb_refl. cbn [negb orb].
  fold (kept_entries orders magnitudes phases).
  destruct (kept_entries orders magnitudes phases) as [| t k] eqn:E;
    [contradiction |].
  cbn [unzip3 bind]. rewrite zip3_of_maps.
  rewrite (fold_left_ext _ (fun acc t => acc ++ (entry_text t ++ [chr "/"]))).
  2:{ intros x y. unfold entry_text. now rewrite <- !app_assoc. }
  rewrite (fold_left_append (fun t => entry_text t ++ [chr "/"])).
  cbn [app]. rewrite <- (map_map entry_text (fun p => p ++ [chr "/"])).
  rewrite drop_last_terminated by discriminate. reflexivity.
Qed.

Lemma no_sep_comma (s : str) : no_sep s = true -> contains (chr ",") s = false.
Proof.
  unfold no_sep. intros H. apply andb_prop in H. now apply negb_true_iff.
Qed.

Lemma no_sep_slash (s : str) : no_sep s = true -> contains (chr "/") s = false.
Proof.
  unfold no_sep. intros H. apply andb_prop in H. now apply negb_true_iff.
Qed.

Lemma entry_text_no_slash (t : number * float * number) :
  entry_reads_back t -> contains (chr "/") (entry_text t) = false.
Proof.
  intros [[_ H1] [[_ H2] [_ H3]]]. unfold entry_text.
  rewrite !contains_app.
  rewrite (no_sep_slash _ H1), (no_sep_slash _ H3).
  change (str_of_number (PyFloat (snd (fst t)))) with (float_str (snd (fst t))) in H2.
  rewrite (no_sep_slash _ H2). reflexivity.
Qed.

Lemma decode_entry_text (acc : list float * list float * list float)
    (t : number * float * number) :
  entry_reads_back t ->
  decode_entry acc (entry_text t) =
    Ok (fst (fst acc) ++ [as_float (fst (fst t))],
        snd (fst acc) ++ [snd (fst t)],
        snd acc ++ [as_float (snd t)]).
Proof.
  intros [[R1 H1] [[R2 H2] [R3 H3]]].
  change (str_of_number (PyFloat (snd (fst t)))) with (float_str (snd (fst t))) in *.
  destruct acc as [[os ms] ps]. unfold decode_entry, entry_text.
  change (lit ",") with [chr ","]. cbn [app].
  rewrite (split_at_first _ _ _ (no_sep_comma _ H1)).
  rewrite (split_at_first _ _ _ (no_sep_comma _ H2)).
  rewrite (split_without _ _ (no_sep_comma _ H3)).
  unfold py_float. rewrite R1, R2, R3. reflexivity.
Qed.

Lemma decode_entries_texts (kept : list (number * float * number))
    (acc : list float * list float * list float) :
  Forall entry_reads_back kept ->
  decode_entries acc (map entry_text kept) =
    Ok (fst (fst acc) ++ map (fun t => as_float (fst (fst t))) kept,
        snd (fst acc) ++ map (fun t => snd (fst t)) kept,
        snd acc ++ map (fun t => as_float (snd t)) kept).
Proof.
  intros H. revert acc. induction H as [| t k Ht Hk IH]; intros acc.
  - simpl. rewrite !app_nil_r. now destruct acc as [[? ?] ?].
  - cbn [map decode_entries]. rewrite (decode_entry_text acc t Ht).
    cbn [bind]. rewrite IH. cbn [fst snd]. now rewrite <- !app_assoc.
Qed.

Lemma decode_joined (kept : list (number * float * number)) :
  kept <> [] -> Forall entry_reads_back kept ->
  string_to_spectrum (join (lit "/") (map entry_text kept)) =
    Ok (map (fun t => as_float (fst (fst t))) kept,
        map (fun t => snd (fst t)) kept,
        map (fun t => as_float (snd t)) kept).
Proof.
  intros Hk H. unfold string_to_spectrum.
  assert (E : endswith (join (lit "/") (map entry_text kept)) (chr "/") = false).
  { destruct (exists_last Hk) as [k' [t Ek]]. subst kept.
    rewrite map_app. cbn [map].
    destruct (join_last (lit "/") (map entry_text k') (entry_text t)) as [pre ->].
    rewrite endswith_app.
    - apply not_true_is_false. intros A. apply endswith_contains in A.
      rewrite entry_text_no_slash in A; [discriminate |].
      rewrite Forall_forall in H. apply H, in_or_app. right. now left.
    - unfold entry_text. intros A. apply (f_equal (@List.length char)) in A.
      rewrite !length_app in A. simpl in A. lia. }
  rewrite E. change (lit "/") with [chr "/"]. rewrite split_join.
  - apply (decode_entries_texts kept ([], [], []) H).
  - destruct kept; [contradiction | discriminate].
  - apply Forall_forall. intros p Hp. apply in_map_iff in Hp.
    destruct Hp as [t [<- Ht]]. apply entry_text_no_slash.
    rewrite Forall_forall in H. now apply H.
Qed.

End SpectrumRoundTrip.

(** C8 (as amended). For sequences of equal length with at least one
    magnitude that is not close to zero, and for numbers whose text reads
    back, decoding the encoded spectrum gives exactly the entries whose
    magnitude is not close to zero (numpy's [isclose], with its default
    tolerances), in their order, orders and phases widened to floats. *)
Theorem spectrum_round_trip {I : Interpreter}
    (orders : list number) (magnitudes : list float) (phases : list number) :
  List.length orders = List.length magnitudes ->
  List.length orders = List.length phases ->
  Exists (fun m => isclose m 0%float = false) magnitudes ->
  Forall entry_reads_back (kept_entries orders magnitudes phases) ->
  exists s,
    spectrum_to_string orders magnitudes phases = Ok s
    /\ string_to_spectrum s =
         Ok (map (fun t => as_float (fst (fst t)))
                 (kept_entries orders magnitudes phases),
             map (fun t => snd (fst t)) (kept_entries orders magnitudes phases),
             map (fun t => as_float (snd t))
                 (kept_entries orders magnitudes phases)).
Proof.
  intros H1 H2 Hex Hall.
  assert (Hk : kept_entries orders magnitudes phases <> []).
  { apply Exists_exists in Hex. destruct Hex as [m [Hm Hc]].
    destruct (zip3_has_middle orders magnitudes phases m H1 H2 Hm) as [t [Ht Em]].
    intros A.
    assert (Hin : In t (kept_entries orders magnitudes phases)).
    { apply filter_In. split; [assumption |]. now rewrite Em, Hc. }
    rewrite A in Hin. contradiction. }
  exists (join (lit "/") (map entry_text (kept_entries orders magnitudes phases))).
  split; [now apply encode_kept | now apply decode_joined].
Qed.

Lemma spectrum_round_trip_witness :
  exists s,
    @spectrum_to_string Excerpt.interpreter
      [PyInt 1; PyInt 3; PyInt 5] [230%float; 0%float; 5.2%float]
      [PyFloat 0%float; PyFloat 0%float; PyFloat 180%float] = Ok s
    /\ @string_to_spectrum Excerpt.interpreter s =
         Ok ([1%float; 5%float], [230%float; 5.2%float], [0%float; 180%float]).
Proof.
  apply (spectrum_round_trip (I := Excerpt.interpreter)
           [PyInt 1; PyInt 3; PyInt 5] [230%float; 0%float; 5.2%float]
           [PyFloat 0%float; PyFloat 0%float; PyFloat 180%float]).
  - reflexivity.
  - reflexivity.
  - apply Exists_cons_hd. reflexivity.
  - repeat (apply Forall_cons || apply Forall_nil);
      (split; [| split]); (split; vm_compute; reflexivity).
Defined.

(** C8 as stated fails: a magnitude of 1e-09 is not zero, yet it is
    close to zero for the filter, so the entry is dropped; when it is the
    only entry the encoder raises. *)
Lemma tiny_magnitude_dropped :
  PrimFloat.eqb 1e-09%float 0%float = false
  /\ @spectrum_to_string Excerpt.interpreter
       [PyInt 1] [1e-09%float] [PyFloat 0%float] = Err (ValueError_unpack 3 0)
  /\ @spectrum_to_string Excerpt.interpreter
       [PyInt 1; PyInt 3] [230%float; 1e-09%float] [PyFloat 0%float; PyFloat 0%float]
     = Ok (lit "1,230.0,0.0")
  /\ @string_to_spectrum Excerpt.interpreter (lit "1,230.0,0.0")
     = Ok ([1%float], [230%float], [0%float]).
Proof. repeat split; vm_compute; reflexivity. Qed.

(** ** Sample runs of the record codec *)

Lemma sample_constructed :
  @construct Excerpt.interpreter 3 14 sample = Ok sample.
Proof. vm_compute. reflexivity. Qed.

Lemma sample_written : @to_txt Excerpt.interpreter sample = Ok sample_text.
Proof. vm_compute. reflexivity. Qed.

Lemma sample_scanned :
  scan ([], None) (readlines sample_text) = Ok (sample_data, Some (lit "Waveforms")).
Proof. vm_compute. reflexivity. Qed.

Lemma sample_read : @from_txt Excerpt.interpreter sample_text = Ok sample.
Proof. vm_compute. reflexivity. Qed.

(** ** The line scanner *)

(** C5, at the failing input. A description with an equals sign passes
    validation and is written by [to_txt]; reading the file back, the
    line splits into three parts at its two equals signs, the unpacking
    into [key, value] has one value too many, and [from_txt] raises. *)
Theorem second_equals_sign_raises :
  @construct Excerpt.interpreter 3 14 (sample_described (lit "a=b"))
    = Ok (sample_described (lit "a=b"))
  /\ scan_line ([(lit "EUT", [])], Some (lit "EUT"))
       (lit "Description = a=b;" ++ nl) = Err (ValueError_unpack 2 3)
  /\ exists text,
       @to_txt Excerpt.interpreter (sample_described (lit "a=b")) = Ok text
       /\ @from_txt Excerpt.interpreter text = Err (ValueError_unpack 2 3).
Proof.
  split; [vm_compute; reflexivity |].
  split; [vm_compute; reflexivity |].
  eexists. split; vm_compute; reflexivity.
Qed.

(** C6, at the failing input. A [key = value] line before the first
    section header finds [section] still [None]: the lookup
    [data[section]] raises [KeyError], and [from_txt] fails. *)
Theorem assignment_before_section_raises :
  scan_line ([], None) (lit "Lab_ID = 1234;" ++ nl) = Err (KeyError None)
  /\ @from_txt Excerpt.interpreter (lit "Lab_ID = 1234;" ++ nl ++ sample_text)
     = Err (KeyError None).
Proof. split; vm_compute; reflexivity. Qed.

(** A line that neither ends in a closing bracket nor holds an equals
    sign leaves the state of the scan as it is. *)
Lemma scan_line_ignored (st : scan_state) (line : str) :
  endswith (strip line) (chr "]") = false ->
  contains (chr "=") line = false ->
  scan_line st line = Ok st.
Proof.
  intros H1 H2. unfold scan_line. destruct st as [data section].
  now rewrite H1, H2.
Qed.

(** ** The waveform block *)

Ltac bind_inv H :=
  repeat match type of H with
         | bind ?c _ = Ok _ =>
             let E := fresh "E" in
             destruct c eqn:E; cbn [bind] in H; [| discriminate H]
         end.

Section Waveforms.
Context {I : Interpreter}.

(** The constructor stores the three waveform arguments as they are. *)
Lemma init_stores_waveform
    (lab_id user_id : str) (category sub_category : Z)
    (unique_id manufacturer product_code sell_country sell_year : str)
    (rated_power : value) (nominal_frequency nominal_voltage : number)
    (supply_source : Z) (description current_harmonics voltage_harmonics : str)
    (rate : option Z) (current voltage : option (list float)) (r : record) :
  __init__ lab_id user_id category sub_category unique_id manufacturer
           product_code sell_country sell_year rated_power nominal_frequency
           nominal_voltage supply_source description current_harmonics
           voltage_harmonics rate current voltage = Ok r ->
  sample_rate r = rate /\ current_data r = current /\ voltage_data r = voltage.
Proof.
  unfold __init__. intros H. bind_inv H.
  injection H as <-. cbn. auto.
Qed.

Lemma waveform_args_absent (data : dict (dict str)) :
  dict_mem data (lit "Waveforms") = false ->
  waveform_args data = Ok (None, None, None).
Proof. intros H. unfold waveform_args. now rewrite H. Qed.

Lemma waveform_args_present (data : dict (dict str)) (w : dict str) :
  dict_get data (lit "Waveforms") = Some w ->
  waveform_args data =
    (s <- getitem w (lit "Sampling_Rate") ;;
     z <- py_int s ;;
     c <- getitem w (lit "Current_Data") ;;
     cd <- mapM py_float (split (chr ",") c) ;;
     v <- getitem w (lit "Voltage_Data") ;;
     vd <- mapM py_float (split (chr ",") v) ;;
     Ok (Some z, Some cd, Some vd)).
Proof.
  intros H. unfold waveform_args, dict_mem, lookup, getitem. rewrite H.
  cbn [bind].
  destruct (dict_get w (lit "Sampling_Rate")); cbn [bind]; [| reflexivity].
  destruct (py_int s); cbn [bind]; [| reflexivity].
  destruct (dict_get w (lit "Current_Data")); cbn [bind]; [| reflexivity].
  destruct (mapM py_float (split (chr ",") s0)); cbn [bind]; [| reflexivity].
  destruct (dict_get w (lit "Voltage_Data")); cbn [bind]; [| reflexivity].
  destruct (mapM py_float (split (chr ",") s1)); reflexivity.
Qed.

Lemma waveform_args_shape (data : dict (dict str))
    (rate : option Z) (current voltage : option (list float)) :
  waveform_args data = Ok (rate, current, voltage) ->
  (rate = None /\ current = None /\ voltage = None)
  \/ (rate <> None /\ current <> None /\ voltage <> None).
Proof.
  intros H. destruct (dict_get data (lit "Waveforms")) as [w |] eqn:E.
  - rewrite (waveform_args_present data w E) in H. bind_inv H.
    injection H as <- <- <-. right. repeat split; discriminate.
  - rewrite waveform_args_absent in H by (unfold dict_mem; now rewrite E).
    injection H as <- <- <-. now left.
Qed.

(** A successful constructor call of [from_txt] has evaluated the
    waveform arguments, and the record holds them. *)
Lemma build_waveform (data : dict (dict str)) (r : record) :
  build data = Ok r ->
  waveform_args data = Ok (sample_rate r, current_data r, voltage_data r).
Proof.
  unfold build. intros H. bind_inv H.
  repeat match goal with
         | x : (_ * _)%type |- _ => destruct x
         end.
  apply init_stores_waveform in H. destruct H as [<- [<- <-]]. reflexivity.
Qed.

(** When a waveform argument raises, so does the constructor call. *)
Lemma build_fails (data : dict (dict str)) (e : exn) :
  waveform_args data = Err e -> exists e', build data = Err e'.
Proof.
  intros H. unfold build.
  repeat match goal with
         | |- exists e', bind ?c _ = Err e' =>
             destruct c; cbn [bind]; [| eexists; reflexivity]
         end.
  discriminate H.
Qed.

(** The list comprehension [float(i) for i in pieces]. *)
Lemma mapM_float_ok (pieces : list str) (l : list float) :
  mapM py_float pieces = Ok l <->
  Forall2 (fun p f => float_of_str p = Some f) pieces l.
Proof.
  revert l. induction pieces as [| p ps IH]; intros l; simpl.
  - split.
    + intros H. injection H as <-. constructor.
    + intros H. inversion H. reflexivity.
  - unfold py_float at 1. destruct (float_of_str p) as [f |] eqn:E; cbn [bind].
    + destruct (mapM py_float ps) as [fs | e] eqn:M; cbn [bind].
      * split.
        -- intros H. injection H as <-. constructor; [assumption |].
           now apply IH.
        -- intros H. inversion H as [| ? f' ? fs' Hf Hfs]; subst.
           apply IH in Hfs. congruence.
      * split; [discriminate |].
        intros H. inversion H as [| ? f' ? fs' Hf Hfs]; subst.
        apply IH in Hfs. discriminate.
    + split; [discriminate |].
      intros H. inversion H; subst. congruence.
Qed.

Lemma mapM_float_err (pieces : list str) (p : str) :
  In p pieces -> float_of_str p = None ->
  exists q, In q pieces /\ float_of_str q = None
            /\ mapM py_float pieces = Err (ValueError_float q).
Proof.
  induction pieces as [| x xs IH]; [contradiction |].
  intros Hin Hp. simpl. unfold py_float at 1.
  destruct (float_of_str x) as [f |] eqn:E; cbn [bind].
  - destruct Hin as [-> | Hin]; [congruence |].
    destruct (IH Hin Hp) as [q [Hq [Nq Mq]]].
    exists q. rewrite Mq. cbn [bind]. auto.
  - exists x. auto.
Qed.

End Waveforms.

(** ** Dictionaries: lookup after assignment *)

Lemma str_eqb_eq (a b : str) : str_eqb a b = true <-> a = b.
Proof.
  revert b. induction a as [| x a IH]; intros [| y b]; simpl;
    try (split; [discriminate | discriminate]); [tauto |].
  rewrite andb_true_iff, N.eqb_eq, IH. split.
  - intros [-> ->]. reflexivity.
  - intros E. injection E as -> ->. auto.
Qed.

Lemma str_eqb_refl (a : str) : str_eqb a a = true.
Proof. now apply str_eqb_eq. Qed.

Lemma str_eqb_neq (a b : str) : a <> b -> str_eqb a b = false.
Proof.
  intros H. apply not_true_is_false. intros E. now apply str_eqb_eq in E.
Qed.

Lemma dict_get_set_same {V} (d : dict V) (k : str) (v : V) :
  dict_get (dict_set d k v) k = Some v.
Proof.
  induction d as [| [k' v'] d IH]; simpl.
  - now rewrite str_eqb_refl.
  - destruct (str_eqb k' k) eqn:E; simpl; rewrite E; [reflexivity | exact IH].
Qed.

Lemma dict_get_set_other {V} (d : dict V) (k k' : str) (v : V) :
  k' <> k -> dict_get (dict_set d k v) k' = dict_get d k'.
Proof.
  intros N. induction d as [| [k0 v0] d IH]; simpl.
  - rewrite str_eqb_neq; [reflexivity | congruence].
  - destruct (str_eqb k0 k) eqn:E; simpl.
    + apply str_eqb_eq in E. subst k0.
      rewrite str_eqb_neq; [reflexivity | congruence].
    + destruct (str_eqb k0 k'); [reflexivity | exact IH].
Qed.

Lemma dict_mem_set {V} (d : dict V) (k k' : str) (v : V) :
  dict_mem (dict_set d k v) k' = str_eqb k k' || dict_mem d k'.
Proof.
  unfold dict_mem. destruct (str_eqb k k') eqn:E.
  - apply str_eqb_eq in E. subst k'. now rewrite dict_get_set_same.
  - rewrite dict_get_set_other; [reflexivity |].
    intros A. subst k'. now rewrite str_eqb_refl in E.
Qed.

(** ** The scanning loop of [from_txt] *)

Lemma occurrences_none (c : char) (s : str) :
  contains c s = false <-> occurrences c s = 0%nat.
Proof.
  unfold contains, occurrences. induction s as [| x s IH]; simpl; [tauto |].
  destruct (c =? x); simpl; [split; discriminate | exact IH].
Qed.

Lemma split_length (sep : char) (s : str) :
  List.length (split sep s) = S (occurrences sep s).
Proof.
  unfold occurrences. induction s as [| c s IH]; simpl; [reflexivity |].
  rewrite (N.eqb_sym sep c). destruct (c =? sep); simpl.
  - now rewrite IH.
  - destruct (split sep s); simpl in *; [discriminate | exact IH].
Qed.

(** X1. A line with two or more equals signs that is no section header
    stops the reader: the split at the equals signs gives more than the
    two parts that [key, value] takes, and the unpacking raises
    [ValueError], whatever the state of the loop. *)
Theorem line_with_more_equals_signs_raises (st : scan_state) (line : str) :
  endswith (strip line) (chr "]") = false ->
  (2 <= occurrences (chr "=") line)%nat ->
  scan_line st line =
    Err (ValueError_unpack 2 (S (occurrences (chr "=") line))).
Proof.
  intros H N. unfold scan_line. destruct st as [data section]. rewrite H.
  destruct (contains (chr "=") line) eqn:C.
  2:{ apply occurrences_none in C. lia. }
  pose proof (split_length (chr "=") line) as L.
  destruct (split (chr "=") line) as [| a [| b [| c l]]];
    try (cbn [List.length] in L; lia).
  now rewrite L.
Qed.

Lemma line_with_more_equals_signs_raises_witness :
  scan_line ([(lit "EUT", [])], Some (lit "EUT")) (lit "Description = a=b;" ++ nl)
    = Err (ValueError_unpack 2 3).
Proof.
  apply (line_with_more_equals_signs_raises
           ([(lit "EUT", [])], Some (lit "EUT")) (lit "Description = a=b;" ++ nl)).
  - reflexivity.
  - vm_compute. lia.
Defined.

(** X2. An assignment line met before any section header raises
    [KeyError]: [section] is still [None], and [data] has no such key. *)
Theorem assignment_outside_section_raises (data : dict (dict str)) (line : str) :
  endswith (strip line) (chr "]") = false ->
  occurrences (chr "=") line = 1%nat ->
  scan_line (data, None) line = Err (KeyError None).
Proof.
  intros H N. unfold scan_line. rewrite H.
  destruct (contains (chr "=") line) eqn:C.
  2:{ apply occurrences_none in C. lia. }
  pose proof (split_length (chr "=") line) as L.
  destruct (split (chr "=") line) as [| a [| b [| c l]]];
    try (cbn [List.length] in L; lia).
  reflexivity.
Qed.

Lemma assignment_outside_section_raises_witness :
  scan_line ([], None) (lit "Lab_ID = 1234;" ++ nl) = Err (KeyError None).
Proof.
  apply (assignment_outside_section_raises [] (lit "Lab_ID = 1234;" ++ nl));
    reflexivity.
Defined.

(** X3. Inside a section an assignment line stores, under the trimmed
    key, the text between the equals sign and the first semicolon,
    trimmed; what follows the semicolon is dropped.  Without a semicolon
    the value runs to the end of the line. *)
Theorem assignment_line_stored (data : dict (dict str)) (s : str) (d : dict str)
    (key value rest : str) :
  dict_get data s = Some d ->
  contains (chr "=") key = false ->
  contains (chr "=") value = false ->
  contains (chr ";") value = false ->
  contains (chr "=") rest = false ->
  (endswith (strip (key ++ chr "=" :: value ++ chr ";" :: rest)) (chr "]") = false ->
   scan_line (data, Some s) (key ++ chr "=" :: value ++ chr ";" :: rest) =
     Ok (dict_set data s (dict_set d (strip key) (strip value)), Some s))
  /\ (endswith (strip (key ++ chr "=" :: value)) (chr "]") = false ->
      scan_line (data, Some s) (key ++ chr "=" :: value) =
        Ok (dict_set data s (dict_set d (strip key) (strip value)), Some s)).
Proof.
  intros Hd Hk Hv Hs Hr. split; intros He; unfold scan_line; rewrite He.
  - replace (contains (chr "=") (key ++ chr "=" :: value ++ chr ";" :: rest))
      with true.
    2:{ symmetry. apply contains_spec, in_or_app. right. now left. }
    rewrite (split_at_first _ _ _ Hk).
    rewrite split_without.
    2:{ rewrite contains_app, Hv. simpl. exact Hr. }
    rewrite (split_at_first _ _ _ Hs). cbn [hd].
    unfold getitem. rewrite Hd. reflexivity.
  - replace (contains (chr "=") (key ++ chr "=" :: value)) with true.
    2:{ symmetry. apply contains_spec, in_or_app. right. now left. }
    rewrite (split_at_first _ _ _ Hk).
    rewrite (split_without _ _ Hv), (split_without _ _ Hs). cbn [hd].
    unfold getitem. rewrite Hd. reflexivity.
Qed.

Lemma assignment_line_stored_witness :
  scan_line ([(lit "EUT", [])], Some (lit "EUT"))
    (lit "  Unique_ID =  uid 7 ; a comment" ++ nl)
  = Ok ([(lit "EUT", [(lit "Unique_ID", lit "uid 7")])], Some (lit "EUT")).
Proof.
  apply (proj1 (assignment_line_stored [(lit "EUT", [])] (lit "EUT") []
                  (lit "  Unique_ID ") (lit "  uid 7 ") (lit " a comment" ++ nl)
                  eq_refl eq_refl eq_refl eq_refl eq_refl)).
  reflexivity.
Defined.

(** X4. A line that ends in a closing bracket once stripped opens the
    section named by the line without its blanks and outer brackets: the
    section starts empty, also when it was filled before, and the other
    sections are kept. *)
Theorem header_opens_empty_section (data : dict (dict str)) (section : option str)
    (line : str) :
  endswith (strip line) (chr "]") = true ->
  exists data',
    scan_line (data, section) line
      = Ok (data', Some (strip_chars (lit "[]") (strip line)))
    /\ dict_get data' (strip_chars (lit "[]") (strip line)) = Some []
    /\ forall k, k <> strip_chars (lit "[]") (strip line) ->
                 dict_get data' k = dict_get data k.
Proof.
  intros H. unfold scan_line. rewrite H. eexists. split; [reflexivity |].
  split; [apply dict_get_set_same |].
  intros k Hk. now apply dict_get_set_other.
Qed.

Lemma header_opens_empty_section_witness :
  exists data',
    scan_line ([(lit "EUT", [(lit "Category", lit "3")])], Some (lit "EUT"))
              (lit " [[EUT] " ++ nl)
      = Ok (data', Some (lit "EUT"))
    /\ dict_get data' (lit "EUT") = Some []
    /\ forall k, k <> lit "EUT" ->
         dict_get data' k
         = dict_get [(lit "EUT", [(lit "Category", lit "3")])] k.
Proof.
  apply (header_opens_empty_section
           [(lit "EUT", [(lit "Category", lit "3")])] (Some (lit "EUT"))
           (lit " [[EUT] " ++ nl)).
  reflexivity.
Defined.

Lemma scan_line_keeps_open (st st' : scan_state) (line : str) :
  section_open st -> scan_line st line = Ok st' -> section_open st'.
Proof.
  destruct st as [data section]. unfold scan_line, section_open.
  intros Hopen H.
  destruct (endswith (strip line) (chr "]")).
  { injection H as <-. cbn [fst snd].
    now rewrite dict_mem_set, str_eqb_refl. }
  destruct (contains (chr "=") line).
  2:{ injection H as <-. exact Hopen. }
  destruct (split (chr "=") line) as [| a [| b [| c l]]]; try discriminate H.
  destruct section as [s |]; [| discriminate H].
  destruct (getitem data s); cbn [bind] in H; [| discriminate H].
  injection H as <-. cbn [fst snd]. now rewrite dict_mem_set, str_eqb_refl.
Qed.

Lemma scan_line_errors (st : scan_state) (line : str) (e : exn) :
  section_open st -> scan_line st line = Err e ->
  e = KeyError None \/ exists n, (3 <= n)%nat /\ e = ValueError_unpack 2 n.
Proof.
  destruct st as [data section]. unfold scan_line, section_open.
  cbn [fst snd]. intros Hopen H.
  destruct (endswith (strip line) (chr "]")); [discriminate H |].
  destruct (contains (chr "=") line) eqn:C; [| discriminate H].
  pose proof (split_length (chr "=") line) as L.
  assert (O : occurrences (chr "=") line <> 0%nat).
  { intros A. apply occurrences_none in A. congruence. }
  destruct (split (chr "=") line) as [| a [| b [| c l]]];
    try (cbn [List.length] in L; lia).
  - destruct section as [s |].
    + unfold dict_mem, getitem in *. destruct (dict_get data s);
        [discriminate H | discriminate Hopen].
    + injection H as <-. now left.
  - injection H as <-. right. eexists. split; [| reflexivity].
    cbn [List.length]. lia.
Qed.

Lemma scan_errors_from (lines : list str) (st : scan_state) (e : exn) :
  section_open st -> scan st lines = Err e ->
  e = KeyError None \/ exists n, (3 <= n)%nat /\ e = ValueError_unpack 2 n.
Proof.
  revert st. induction lines as [| line rest IH]; intros st Hopen H;
    [discriminate H |].
  cbn [scan] in H. destruct (scan_line st line) as [st' | e'] eqn:E;
    cbn [bind] in H.
  - apply (IH st'); [| exact H]. exact (scan_line_keeps_open st st' line Hopen E).
  - injection H as <-. exact (scan_line_errors st line e' Hopen E).
Qed.

(** X5. The loop over the lines raises in two ways only: an assignment
    line before the first section header ([KeyError] on [None]), and a
    line with more than one equals sign (unpacking three or more parts
    into two).  A section that is named is always in the dictionary, so no
    other lookup of the loop fails. *)
Theorem scan_errors (text : str) (e : exn) :
  scan ([], None) (readlines text) = Err e ->
  e = KeyError None \/ exists n, (3 <= n)%nat /\ e = ValueError_unpack 2 n.
Proof. apply scan_errors_from. exact Logic.I. Qed.

Lemma scan_errors_witness :
  KeyError None = KeyError None
  \/ exists n, (3 <= n)%nat /\ KeyError None = ValueError_unpack 2 n.
Proof.
  apply (scan_errors (lit "Lab_ID = 1234;" ++ nl) (KeyError None)).
  reflexivity.
Defined.

Lemma scan_passed_over (lines : list str) (st : scan_state) :
  forallb passed_over lines = true -> scan st lines = Ok st.
Proof.
  induction lines as [| line rest IH]; intros H; [reflexivity |].
  cbn [forallb] in H. apply andb_prop in H. destruct H as [Hl Hr].
  unfold passed_over in Hl. apply andb_prop in Hl. destruct Hl as [H1 H2].
  apply negb_true_iff in H1, H2.
  cbn [scan]. rewrite (scan_line_ignored st line H1 H2). cbn [bind].
  exact (IH Hr).
Qed.

(** X6. A file without a section header and without an assignment, the
    empty file among them, gives no record: every line is passed over, the
    dictionary stays empty, and the first lookup raises [KeyError] on
    ['User Detail']. *)
Theorem file_without_sections_raises {I : Interpreter} (text : str) :
  forallb passed_over (readlines text) = true ->
  from_txt text = Err (KeyError (Some (lit "User Detail"))).
Proof.
  intros H. unfold from_txt. rewrite (scan_passed_over _ _ H). reflexivity.
Qed.

Lemma file_without_sections_raises_witness :
  @from_txt Excerpt.interpreter [] = Err (KeyError (Some (lit "User Detail")))
  /\ @from_txt Excerpt.interpreter (lit "TUDHDB_TXT_v01" ++ nl ++ lit "no data" ++ nl)
     = Err (KeyError (Some (lit "User Detail"))).
Proof.
  split; apply (file_without_sections_raises (I := Excerpt.interpreter));
    reflexivity.
Defined.

(** ** Integers and their decimal text *)

Ltac digit_step C k :=
  match goal with
  | IH : forall acc b, _ -> digits_value acc b (uint_chars ?d) = _
    |- digits_value ?acc ?b (uint_chars (C ?d)) = _ =>
      change (digits_value acc b (uint_chars (C d)))
        with (digits_value (10 * acc + k) true (uint_chars d));
      rewrite IH by (now left); f_equal;
      change (Decimal.rev (C d)) with (Decimal.revapp d (C Decimal.Nil));
      rewrite (DecimalPos.Unsigned.of_lu_revapp d (C Decimal.Nil));
      cbn [DecimalPos.Unsigned.usize DecimalPos.Unsigned.of_lu];
      rewrite N.pow_succ_r'; ring
  end.

Lemma digits_value_uint {I : Interpreter} (d : Decimal.uint) (acc : N) (b : bool) :
  b = true \/ d <> Decimal.Nil ->
  digits_value acc b (uint_chars d)
  = Some (DecimalPos.Unsigned.of_lu (Decimal.rev d)
          + acc * 10 ^ DecimalPos.Unsigned.usize d).
Proof.
  revert acc b. induction d; intros acc b Hb.
  - destruct Hb as [-> | Hb]; [| contradiction]. simpl. f_equal. lia.
  - digit_step Decimal.D0 0.
  - digit_step Decimal.D1 1.
  - digit_step Decimal.D2 2.
  - digit_step Decimal.D3 3.
  - digit_step Decimal.D4 4.
  - digit_step Decimal.D5 5.
  - digit_step Decimal.D6 6.
  - digit_step Decimal.D7 7.
  - digit_step Decimal.D8 8.
  - digit_step Decimal.D9 9.
Qed.

Lemma digits_value_str_of_N {I : Interpreter} (n : N) :
  digits_value 0 false (str_of_N n) = Some n.
Proof.
  unfold str_of_N. rewrite digits_value_uint.
  - rewrite N.mul_0_l, N.add_0_r, <- DecimalPos.Unsigned.of_uint_alt.
    f_equal. apply DecimalN.Unsigned.of_to.
  - right. destruct n; [discriminate |]. apply DecimalPos.Unsigned.to_uint_nonnil.
Qed.

Lemma uint_chars_digits (d : Decimal.uint) :
  forallb ascii_digit (uint_chars d) = true.
Proof. induction d; simpl; auto. Qed.

Lemma dropwhile_head (p : char -> bool) (c : char) (s : str) :
  p c = false -> dropwhile p (c :: s) = c :: s.
Proof. intros H. simpl. now rewrite H. Qed.

Lemma strip_with_ends (p : char -> bool) (s : str) :
  (forall c t, s = c :: t -> p c = false) ->
  (forall c t, List.rev s = c :: t -> p c = false) ->
  strip_with p s = s.
Proof.
  intros Hf Hl. unfold strip_with, rstrip_with, lstrip_with.
  assert (E : dropwhile p s = s).
  { destruct s as [| c t]; [reflexivity |]. apply dropwhile_head. now apply (Hf c t). }
  rewrite E.
  assert (E' : dropwhile p (rev s) = rev s).
  { destruct (rev s) as [| c t] eqn:R; [reflexivity |].
    apply dropwhile_head. now apply (Hl c t). }
  rewrite E'. apply rev_involutive.
Qed.

Lemma strip_with_none (p : char -> bool) (s : str) :
  forallb (fun c => negb (p c)) s = true -> strip_with p s = s.
Proof.
  intros H. rewrite forallb_forall in H. apply strip_with_ends.
  - intros c t E. apply negb_true_iff, H. rewrite E. now left.
  - intros c t E. apply negb_true_iff, H, in_rev. rewrite E. now left.
Qed.

Lemma int_of_str_of_int {I : Interpreter} (z : Z) :
  int_of_str (str_of_int z) = Some z.
Proof.
  unfold int_of_str.
  assert (S : strip_with int_space (str_of_int z) = str_of_int z).
  { apply strip_with_none. destruct z as [| p | p]; cbn [str_of_int].
    - reflexivity.
    - unfold str_of_N. generalize (uint_chars_digits (N.to_uint (N.pos p))).
      generalize (uint_chars (N.to_uint (N.pos p))). intros s Hs.
      rewrite forallb_forall in *. intros c Hc. specialize (Hs c Hc).
      unfold ascii_digit in Hs. unfold int_space.
      apply andb_prop in Hs. destruct Hs as [A B].
      apply N.leb_le in A, B.
      replace (c <? 128) with true by (symmetry; apply N.ltb_lt; lia).
      apply negb_true_iff, orb_false_iff. split.
      + apply andb_false_iff. right. apply N.leb_gt. lia.
      + apply N.eqb_neq. lia.
    - cbn [forallb]. apply andb_true_iff. split; [reflexivity |].
      unfold str_of_N. generalize (uint_chars_digits (N.to_uint (N.pos p))).
      generalize (uint_chars (N.to_uint (N.pos p))). intros s Hs.
      rewrite forallb_forall in *. intros c Hc. specialize (Hs c Hc).
      unfold ascii_digit in Hs. unfold int_space.
      apply andb_prop in Hs. destruct Hs as [A B].
      apply N.leb_le in A, B.
      replace (c <? 128) with true by (symmetry; apply N.ltb_lt; lia).
      apply negb_true_iff, orb_false_iff. split.
      + apply andb_false_iff. right. apply N.leb_gt. lia.
      + apply N.eqb_neq. lia. }
  rewrite S. destruct z as [| p | p]; cbn [str_of_int].
  - reflexivity.
  - pose proof (digits_value_str_of_N (N.pos p)) as D.
    unfold str_of_N in *.
    pose proof (DecimalPos.Unsigned.to_uint_nonnil p) as NN.
    change (N.to_uint (N.pos p)) with (Pos.to_uint p) in *.
    destruct (Pos.to_uint p); try contradiction;
      cbn [uint_chars] in *; exact (f_equal (option_map Z.of_N) D).
  - exact (f_equal (option_map (fun n => Z.opp (Z.of_N n)))
                   (digits_value_str_of_N (N.pos p))).
Qed.

Lemma uint_chars_bound {I : Interpreter} (d : Decimal.uint) (acc v : N) (b : bool) :
  digits_value acc b (uint_chars d) = Some v ->
  v < (acc + 1) * 10 ^ N.of_nat (List.length (uint_chars d)).
Proof.
  revert acc b. induction d; intros acc b H;
    [ destruct b; [injection H as <-; simpl; lia | discriminate H] | .. ];
    cbn [uint_chars List.length];
    rewrite Nat2N.inj_succ, N.pow_succ_r';
    match type of H with
    | digits_value _ _ (uint_chars (?C _)) = _ =>
        apply (IHd (10 * acc + (hd 0 (uint_chars (C Decimal.Nil)) - 48)) true) in H
    end; cbn [uint_chars hd] in H; nia.
Qed.

Lemma str_of_N_bound {I : Interpreter} (n k : N) :
  N.of_nat (List.length (str_of_N n)) <= k -> n < 10 ^ k.
Proof.
  intros H. pose proof (uint_chars_bound _ _ _ _ (digits_value_str_of_N n)) as B.
  fold (str_of_N n) in B. rewrite N.add_0_l, N.mul_1_l in B.
  eapply N.lt_le_trans; [exact B |]. apply N.pow_le_mono_r; [discriminate | exact H].
Qed.

(** ** What a successful validation tells *)

Lemma validate_ok {I : Interpreter} (name value : str) (digits_only : bool) (v : str) :
  _validate_property name value digits_only = Ok v ->
  v = value
  /\ exists max, dict_get MAX_LENGTHS name = Some max
                 /\ field_ok digits_only max value.
Proof.
  unfold _validate_property, getitem, field_ok. intros H.
  destruct (digits_only && negb (isdigit value)) eqn:D; [discriminate H |].
  destruct (existsb (fun c => negb (contains c ALLOWED_CHARS)) value) eqn:B;
    [discriminate H |].
  destruct (dict_get MAX_LENGTHS name) as [max |]; cbn [bind] in H;
    [| discriminate H].
  destruct (max <? N.of_nat (List.length value)) eqn:L; [discriminate H |].
  injection H as <-. split; [reflexivity |]. exists max. split; [reflexivity |].
  split; [| split].
  - intros ->. cbn [andb] in D. now apply negb_false_iff in D.
  - apply Forall_forall. intros c Hc.
    destruct (contains c ALLOWED_CHARS) eqn:A; [reflexivity |].
    assert (T : existsb (fun c => negb (contains c ALLOWED_CHARS)) value = true).
    { apply existsb_exists. exists c. now rewrite A. }
    congruence.
  - now apply N.ltb_ge.
Qed.

Lemma field_ok_validates {I : Interpreter} (name value : str) (digits_only : bool)
    (max : N) :
  dict_get MAX_LENGTHS name = Some max ->
  field_ok digits_only max value ->
  _validate_property name value digits_only = Ok value.
Proof.
  intros Hmax [D [A L]]. rewrite (validate_unfold name value digits_only max Hmax).
  replace (digits_only && negb (isdigit value)) with false.
  2:{ destruct digits_only; [| reflexivity]. now rewrite D. }
  replace (existsb (fun c => negb (contains c ALLOWED_CHARS)) value) with false.
  2:{ symmetry. apply not_true_is_false. rewrite bad_char_iff.
      intros [c [Hin Hc]]. rewrite Forall_forall in A. rewrite (A c Hin) in Hc.
      discriminate. }
  apply N.ltb_ge in L. now rewrite L.
Qed.

Lemma negative_text_not_digits {I : Interpreter} (p : positive) :
  isdigit (str_of_int (Z.neg p)) = false.
Proof. reflexivity. Qed.

Lemma small_numbers_validate {I : Interpreter} (name : str) (bound : nat) :
  forallb (fun n => match _validate_property name (str_of_int (Z.of_nat n)) true with
                    | Ok v => str_eqb v (str_of_int (Z.of_nat n))
                    | Err _ => false
                    end) (seq 0 bound) = true ->
  forall z, (0 <= z < Z.of_nat bound)%Z ->
  _validate_property name (str_of_int z) true = Ok (str_of_int z).
Proof.
  intros T z Hz. rewrite forallb_forall in T.
  specialize (T (Z.to_nat z)). rewrite Z2Nat.id in T by lia.
  destruct (_validate_property name (str_of_int z) true) as [v | e].
  - f_equal. apply str_eqb_eq, T, in_seq. lia.
  - assert (F : false = true) by (apply T, in_seq; lia). discriminate F.
Qed.

Lemma validated_number_range {I : Interpreter} (name : str) (max : N) (z : Z)
    (v : str) :
  dict_get MAX_LENGTHS name = Some max ->
  _validate_property name (str_of_int z) true = Ok v ->
  (0 <= z < Z.of_N (10 ^ max))%Z.
Proof.
  intros Hmax H. apply validate_ok in H.
  destruct H as [_ [max' [Hmax' [D [_ L]]]]].
  rewrite Hmax in Hmax'. injection Hmax' as <-.
  destruct z as [| p | p].
  - split; [lia |]. apply (N2Z.inj_lt 0). apply N.neq_0_lt_0.
    apply N.pow_nonzero. discriminate.
  - split; [lia |]. change (Z.pos p) with (Z.of_N (N.pos p)).
    apply N2Z.inj_lt. now apply str_of_N_bound.
  - specialize (D eq_refl). rewrite negative_text_not_digits in D.
    discriminate D.
Qed.

(** X7. The category must be one decimal digit and the sub-category one or
    two: the validation of [str(category)] succeeds exactly for the
    integers from 0 to 9, and that of [str(sub_category)] exactly for
    those from 0 to 99; a negative number fails on its sign. *)
Theorem category_numbers_accepted {I : Interpreter} (z : Z) :
  (_validate_property (lit "category") (str_of_int z) true = Ok (str_of_int z)
   <-> (0 <= z <= 9)%Z)
  /\ (_validate_property (lit "sub_category") (str_of_int z) true
        = Ok (str_of_int z)
      <-> (0 <= z <= 99)%Z).
Proof.
  split; split.
  - intros H. apply (validated_number_range (lit "category") 1 z _ eq_refl) in H.
    change (Z.of_N (10 ^ 1)) with 10%Z in H. lia.
  - intros H. apply (small_numbers_validate (lit "category") 10);
      [vm_compute; reflexivity | lia].
  - intros H. apply (validated_number_range (lit "sub_category") 2 z _ eq_refl) in H.
    change (Z.of_N (10 ^ 2)) with 100%Z in H. lia.
  - intros H. apply (small_numbers_validate (lit "sub_category") 100);
      [vm_compute; reflexivity | lia].
Qed.

Lemma category_numbers_accepted_witness :
  @_validate_property Excerpt.interpreter (lit "category") (str_of_int 6) true
    = Ok (lit "6")
  /\ @_validate_property Excerpt.interpreter (lit "sub_category") (str_of_int 10) true
    = Ok (lit "10").
Proof.
  split.
  - apply (proj2 (proj1 (category_numbers_accepted (I := Excerpt.interpreter) 6))).
    lia.
  - apply (proj2 (proj2 (category_numbers_accepted (I := Excerpt.interpreter) 10))).
    lia.
Defined.

(** X8. A validated digit-only value is a non-empty run of the ASCII
    digits 0 to 9: a digit of another script passes [isdigit] but is not
    an allowed character, provided none of the three allowed code points
    above ASCII counts as a digit for the interpreter. *)
Theorem digit_field_holds_ascii_digits {I : Interpreter} (name value v : str) :
  (forall c, In c extra_chars -> uni_isdigit c = false) ->
  _validate_property name value true = Ok v ->
  v = value /\ value <> [] /\ Forall (fun c => ascii_digit c = true) value.
Proof.
  intros HI H. apply validate_ok in H.
  destruct H as [-> [max [_ [D [A _]]]]]. specialize (D eq_refl).
  split; [reflexivity |]. split; [intros ->; discriminate D |].
  apply Forall_forall. intros c Hc. rewrite Forall_forall in A.
  specialize (A c Hc). rewrite allowed_chars_exactly in A.
  assert (Dc : isdigit_char c = true).
  { destruct value as [| x value]; [contradiction |].
    change (isdigit (x :: value)) with (forallb isdigit_char (x :: value)) in D.
    rewrite forallb_forall in D. now apply D. }
  unfold isdigit_char in Dc. destruct (N.ltb_spec c 128) as [Lt | Ge];
    [exact Dc |].
  apply orb_prop in A. destruct A as [A | A].
  - apply listed_char_ascii in A. lia.
  - apply contains_spec in A. rewrite (HI c A) in Dc. discriminate Dc.
Qed.

Lemma digit_field_holds_ascii_digits_witness :
  lit "2020" = lit "2020" /\ lit "2020" <> []
  /\ Forall (fun c => ascii_digit c = true) (lit "2020").
Proof.
  apply (digit_field_holds_ascii_digits (I := Excerpt.interpreter)
           (lit "sell_year") (lit "2020") (lit "2020")).
  - intros c Hc. simpl in Hc.
    destruct Hc as [<- | [<- | [<- | []]]]; reflexivity.
  - reflexivity.
Defined.

(** ** What a successful construction tells *)

Lemma init_inv {I : Interpreter}
    (lab_id user_id : str) (category sub_category : Z)
    (unique_id manufacturer product_code sell_country sell_year : str)
    (rated_power : value) (nominal_frequency nominal_voltage : number)
    (supply_source : Z) (description current_harmonics voltage_harmonics : str)
    (rate : option Z) (current voltage : option (list float)) (r : record) :
  __init__ lab_id user_id category sub_category unique_id manufacturer
           product_code sell_country sell_year rated_power nominal_frequency
           nominal_voltage supply_source description current_harmonics
           voltage_harmonics rate current voltage = Ok r ->
  r = {| lab_id := lab_id;
         user_id := user_id;
         category := str_of_int category;
         sub_category := str_of_int sub_category;
         unique_id := unique_id;
         manufacturer := manufacturer;
         product_code := product_code;
         sell_country := sell_country;
         sell_year := sell_year;
         rated_power := rated_power;
         nominal_frequency := nominal_frequency;
         nominal_voltage := nominal_voltage;
         supply_source := supply_source;
         description := description;
         current_harmonics := current_harmonics;
         voltage_harmonics := voltage_harmonics;
         sample_rate := rate;
         current_data := current;
         voltage_data := voltage |}
  /\ valid_record r
  /\ (0 <= category <= 9)%Z /\ (0 <= sub_category <= 99)%Z.
Proof.
  unfold __init__. intros H. bind_inv H. injection H as <-.
  match goal with
  | E : _validate_property (lit "category") _ _ = Ok _ |- _ =>
      pose proof (validated_number_range (lit "category") 1 _ _ eq_refl E) as C
  end.
  match goal with
  | E : _validate_property (lit "sub_category") _ _ = Ok _ |- _ =>
      pose proof (validated_number_range (lit "sub_category") 2 _ _ eq_refl E) as S
  end.
  change (Z.of_N (10 ^ 1)) with 10%Z in C. change (Z.of_N (10 ^ 2)) with 100%Z in S.
  repeat match goal with
         | E : _validate_property _ _ _ = Ok _ |- _ =>
             let m := fresh "m" in
             let Hm := fresh "Hm" in
             apply validate_ok in E; destruct E as [-> [m [Hm ?]]];
             vm_compute in Hm; injection Hm as <-
         end.
  split; [reflexivity |]. split; [| lia].
  unfold valid_record. cbn.
  repeat match goal with |- _ /\ _ => split end; assumption.
Qed.

(** X9. The constructor returns a record exactly when the ten validated
    attributes obey their rules (digits where required, allowed
    characters, maximum lengths of [MAX_LENGTHS]), [category] and
    [sub_category] being validated as their decimal text.  The record then
    holds every argument as it was given; the rated power, the nominal
    values, the supply source, the harmonics and the waveform arguments
    are stored unchecked. *)
Theorem constructor_accepts_iff {I : Interpreter}
    (lab_id user_id : str) (category sub_category : Z)
    (unique_id manufacturer product_code sell_country sell_year : str)
    (rated_power : value) (nominal_frequency nominal_voltage : number)
    (supply_source : Z) (description current_harmonics voltage_harmonics : str)
    (rate : option Z) (current voltage : option (list float)) (r : record) :
  __init__ lab_id user_id category sub_category unique_id manufacturer
           product_code sell_country sell_year rated_power nominal_frequency
           nominal_voltage supply_source description current_harmonics
           voltage_harmonics rate current voltage = Ok r
  <-> r = {| lab_id := lab_id;
             user_id := user_id;
             category := str_of_int category;
             sub_category := str_of_int sub_category;
             unique_id := unique_id;
             manufacturer := manufacturer;
             product_code := product_code;
             sell_country := sell_country;
             sell_year := sell_year;
             rated_power := rated_power;
             nominal_frequency := nominal_frequency;
             nominal_voltage := nominal_voltage;
             supply_source := supply_source;
             description := description;
             current_harmonics := current_harmonics;
             voltage_harmonics := voltage_harmonics;
             sample_rate := rate;
             current_data := current;
             voltage_data := voltage |}
      /\ valid_record r.
Proof.
  split.
  - intros H. apply init_inv in H. tauto.
  - intros [-> V]. unfold valid_record in V. cbn in V.
    destruct V as [V1 [V2 [V3 [V4 [V5 [V6 [V7 [V8 [V9 V10]]]]]]]]].
    unfold __init__.
    rewrite (field_ok_validates (lit "lab_id") _ true 4 eq_refl V1).
    rewrite (field_ok_validates (lit "user_id") _ true 4 eq_refl V2).
    rewrite (field_ok_validates (lit "category") _ true 1 eq_refl V3).
    rewrite (field_ok_validates (lit "sub_category") _ true 2 eq_refl V4).
    rewrite (field_ok_validates (lit "unique_id") _ false 24 eq_refl V5).
    rewrite (field_ok_validates (lit "manufacturer") _ false 64 eq_refl V6).
    rewrite (field_ok_validates (lit "product_code") _ false 64 eq_refl V7).
    rewrite (field_ok_validates (lit "sell_country") _ false 2 eq_refl V8).
    rewrite (field_ok_validates (lit "sell_year") _ true 4 eq_refl V9).
    rewrite (field_ok_validates (lit "description") _ false 500 eq_refl V10).
    reflexivity.
Qed.

Lemma constructor_accepts_iff_witness :
  sample = sample /\ @valid_record Excerpt.interpreter sample.
Proof.
  apply (proj1 (constructor_accepts_iff (I := Excerpt.interpreter)
           (lit "1234") (lit "12") 3 14 (lit "uid-1") (lit "ACME") (lit "PC 1")
           (lit "DE") (lit "2020") (VStr (lit "NA")) (PyFloat 50%float)
           (PyInt 230) 1%Z (lit "charger") (lit "1,230.0,0.0/5,5.2,180.0")
           (lit "1,230.0,0.0") (Some 1000%Z) (Some [0.5%float; (-0.25)%float])
           (Some [230%float]) sample)).
  vm_compute. reflexivity.
Defined.

(** ** What a successful reading tells *)

Lemma from_txt_inv {I : Interpreter} (text : str) (r : record) :
  from_txt text = Ok r ->
  exists data section,
    scan ([], None) (readlines text) = Ok (data, section) /\ build data = Ok r.
Proof.
  unfold from_txt. intros H. bind_inv H.
  match goal with
  | E : scan _ _ = Ok ?st |- _ => destruct st as [data section]
  end.
  now exists data, section.
Qed.

(** X10. A record that [from_txt] returns obeys the rules of the
    validated attributes; its rated power is the text of the file, its
    nominal frequency a float and its nominal voltage an integer, and its
    category and sub-category are the decimal text of integers from 0 to 9
    and from 0 to 99. *)
Theorem decoded_record_shape {I : Interpreter} (text : str) (r : record) :
  from_txt text = Ok r ->
  valid_record r
  /\ (exists s, rated_power r = VStr s)
  /\ (exists f, nominal_frequency r = PyFloat f)
  /\ (exists z, nominal_voltage r = PyInt z)
  /\ (exists c, (0 <= c <= 9)%Z /\ category r = str_of_int c)
  /\ (exists s, (0 <= s <= 99)%Z /\ sub_category r = str_of_int s).
Proof.
  intros H. apply from_txt_inv in H. destruct H as [data [section [_ H]]].
  unfold build in H. bind_inv H.
  repeat match goal with
         | x : (_ * _)%type |- _ => destruct x
         end.
  apply init_inv in H. destruct H as [-> [V [C S]]].
  split; [exact V |]. cbn.
  do 3 (split; [eexists; reflexivity |]).
  split; eexists; (split; [eassumption | reflexivity]).
Qed.

Lemma decoded_record_shape_witness :
  @valid_record Excerpt.interpreter sample
  /\ (exists s, rated_power sample = VStr s)
  /\ (exists f, nominal_frequency sample = PyFloat f)
  /\ (exists z, nominal_voltage sample = PyInt z)
  /\ (exists c, (0 <= c <= 9)%Z /\ category sample = str_of_int c)
  /\ (exists s, (0 <= s <= 99)%Z /\ sub_category sample = str_of_int s).
Proof.
  apply (decoded_record_shape (I := Excerpt.interpreter) sample_text sample).
  vm_compute. reflexivity.
Defined.

(** X11. The waveform attributes of a record read from a file are those
    of the section [Waveforms] of the file: without the section all three
    are [None]; with it, the section holds the three keys, the sampling
    rate is the integer of its text, and the two sequences are the floats
    of the pieces between the commas, in their order. *)
Theorem decoded_waveform {I : Interpreter} (text : str)
    (data : dict (dict str)) (section : option str) (r : record) :
  scan ([], None) (readlines text) = Ok (data, section) ->
  from_txt text = Ok r ->
  match dict_get data (lit "Waveforms") with
  | None => sample_rate r = None /\ current_data r = None /\ voltage_data r = None
  | Some w =>
      exists s c v z cd vd,
        dict_get w (lit "Sampling_Rate") = Some s /\ int_of_str s = Some z
        /\ dict_get w (lit "Current_Data") = Some c
        /\ Forall2 (fun p f => float_of_str p = Some f) (split (chr ",") c) cd
        /\ dict_get w (lit "Voltage_Data") = Some v
        /\ Forall2 (fun p f => float_of_str p = Some f) (split (chr ",") v) vd
        /\ sample_rate r = Some z /\ current_data r = Some cd
        /\ voltage_data r = Some vd
  end.
Proof.
  intros Hs H. unfold from_txt in H. rewrite Hs in H. cbn [bind fst] in H.
  apply build_waveform in H.
  destruct (dict_get data (lit "Waveforms")) as [w |] eqn:W.
  - rewrite (waveform_args_present data w W) in H. bind_inv H.
    injection H as H1 H2 H3.
    unfold getitem in *. unfold py_int in *.
    repeat match goal with
           | E : match ?x with _ => _ end = Ok _ |- _ =>
               destruct x eqn:?; [injection E as -> | discriminate E]
           end.
    repeat match goal with
           | E : mapM py_float _ = Ok _ |- _ => apply mapM_float_ok in E
           end.
    repeat eexists; eauto.
  - rewrite waveform_args_absent in H by (unfold dict_mem; now rewrite W).
    injection H as <- <- <-. auto.
Qed.

Lemma decoded_waveform_witness :
  exists s c v z cd vd,
    dict_get [ (lit "Sampling_Rate", lit "1000");
               (lit "Current_Data", lit "0.5,-0.25");
               (lit "Voltage_Data", lit "230.0") ] (lit "Sampling_Rate") = Some s
    /\ @int_of_str Excerpt.interpreter s = Some z
    /\ dict_get [ (lit "Sampling_Rate", lit "1000");
                  (lit "Current_Data", lit "0.5,-0.25");
                  (lit "Voltage_Data", lit "230.0") ] (lit "Current_Data") = Some c
    /\ Forall2 (fun p f => @float_of_str Excerpt.interpreter p = Some f)
               (split (chr ",") c) cd
    /\ dict_get [ (lit "Sampling_Rate", lit "1000");
                  (lit "Current_Data", lit "0.5,-0.25");
                  (lit "Voltage_Data", lit "230.0") ] (lit "Voltage_Data") = Some v
    /\ Forall2 (fun p f => @float_of_str Excerpt.interpreter p = Some f)
               (split (chr ",") v) vd
    /\ sample_rate sample = Some z /\ current_data sample = Some cd
    /\ voltage_data sample = Some vd.
Proof.
  exact (decoded_waveform (I := Excerpt.interpreter) sample_text sample_data
           (Some (lit "Waveforms")) sample sample_scanned sample_read).
Defined.

(** X12. A record read from a file has the whole waveform block or none
    of it: the sampling rate and the two sequences are all present or all
    [None]. *)
Theorem decoded_record_all_or_nothing {I : Interpreter} (text : str) (r : record) :
  from_txt text = Ok r -> all_or_nothing r.
Proof.
  intros H. apply from_txt_inv in H. destruct H as [data [section [_ H]]].
  apply build_waveform in H. exact (waveform_args_shape _ _ _ _ H).
Qed.

Lemma decoded_record_all_or_nothing_witness : all_or_nothing sample.
Proof.
  apply (decoded_record_all_or_nothing (I := Excerpt.interpreter) sample_text).
  vm_compute. reflexivity.
Defined.

(** ** The writer *)

Section Writer.
Context {I : Interpreter}.

Lemma write_all_spec (lines : list str) (file : str) :
  write_all file lines =
    if forallb encodable (List.concat lines)
    then Ok (file ++ List.concat lines) else Err UnicodeEncodeError.
Proof.
  revert file. induction lines as [| l ls IH]; intros file.
  - cbn. now rewrite app_nil_r.
  - cbn [write_all List.concat]. unfold write. rewrite forallb_app.
    destruct (forallb encodable l); cbn [bind andb]; [| reflexivity].
    rewrite IH. now rewrite app_assoc.
Qed.

Lemma write_all_app (a b : list str) (file : str) :
  write_all file (a ++ b) = bind (write_all file a) (fun f => write_all f b).
Proof.
  revert file. induction a as [| l a IH]; intros file; [reflexivity |].
  cbn [app write_all]. destruct (write file l); cbn [bind]; [apply IH | reflexivity].
Qed.

(** Without a sampling rate [to_txt] writes the fixed lines. *)
Lemma to_txt_without_rate (r : record) :
  sample_rate r = None -> to_txt r = write_all [] (fixed_lines r).
Proof.
  intros H. unfold to_txt. rewrite H. now destruct (write_all [] (fixed_lines r)).
Qed.

(** With a sampling rate and the two sequences it writes the fixed lines
    and the four lines of the waveform block. *)
Lemma to_txt_with_block (r : record) (rate : Z) (c v : list float) :
  sample_rate r = Some rate -> current_data r = Some c ->
  voltage_data r = Some v ->
  to_txt r =
    write_all [] (fixed_lines r
                  ++ [ lit "[Waveforms]" ++ nl;
                       key_line "Sampling_Rate" (str_of_int rate);
                       key_line "Current_Data" (join (lit ",") (map float_str c));
                       key_line "Voltage_Data" (join (lit ",") (map float_str v)) ]).
Proof.
  intros H1 H2 H3. unfold to_txt. rewrite H1, H2, H3, write_all_app.
  destruct (write_all [] (fixed_lines r)) as [f |]; cbn [bind join_data write_all];
    [| reflexivity].
  repeat match goal with
         | |- context [write ?f ?l] => destruct (write f l); cbn [bind]
         end; reflexivity.
Qed.

(** The text of a completed [to_txt] is the text of the sections of the
    record, and all of it is encodable. *)
Lemma to_txt_ok (r : record) (text : str) :
  to_txt r = Ok text <->
  text = render (sections_of r) /\ forallb encodable text = true
  /\ (sample_rate r = None
      \/ (current_data r <> None /\ voltage_data r <> None)).
Proof.
  destruct (sample_rate r) as [rate |] eqn:SR.
  - destruct (current_data r) as [c |] eqn:CD.
    + destruct (voltage_data r) as [v |] eqn:VD.
      * rewrite (to_txt_with_block r rate c v SR CD VD), write_all_spec.
        assert (E : render (sections_of r)
                    = List.concat (fixed_lines r
                        ++ [ lit "[Waveforms]" ++ nl;
                             key_line "Sampling_Rate" (str_of_int rate);
                             key_line "Current_Data" (join (lit ",") (map float_str c));
                             key_line "Voltage_Data" (join (lit ",") (map float_str v)) ])).
        { unfold sections_of. rewrite SR, CD, VD. reflexivity. }
        rewrite E. clear E.
        match goal with
        | |- context [if forallb encodable ?x then _ else _] => generalize x
        end.
        intros t. cbn [app]. destruct (forallb encodable t) eqn:F.
        -- split.
           ++ intros H. injection H as <-.
              split; [reflexivity |]. split; [exact F |].
              right. split; discriminate.
           ++ intros [-> _]. reflexivity.
        -- split; [discriminate |]. intros [-> [F' _]]. congruence.
      * split.
        -- intros H. exfalso. unfold to_txt in H. rewrite SR, CD, VD in H.
           destruct (write_all [] (fixed_lines r)); cbn [bind join_data] in H;
             [| discriminate H].
           repeat match type of H with
                  | context [write ?f ?l] =>
                      destruct (write f l); cbn [bind] in H
                  end; discriminate H.
        -- intros [_ [_ [H | [_ H]]]]; [discriminate H | contradiction].
    + split.
      * intros H. exfalso. unfold to_txt in H. rewrite SR, CD in H.
        destruct (write_all [] (fixed_lines r)); cbn [bind join_data] in H;
          [| discriminate H].
        repeat match type of H with
               | context [write ?f ?l] =>
                   destruct (write f l); cbn [bind] in H
               end; discriminate H.
      * intros [_ [_ [H | [H _]]]]; [discriminate H | contradiction].
  - rewrite (to_txt_without_rate r SR), write_all_spec.
    assert (E : render (sections_of r) = List.concat (fixed_lines r)).
    { unfold sections_of. rewrite SR. reflexivity. }
    rewrite E. clear E. generalize (List.concat (fixed_lines r)). intros t.
    cbn [app]. destruct (forallb encodable t) eqn:F.
    + split.
      * intros H. injection H as <-. auto.
      * intros [-> _]. reflexivity.
    + split; [discriminate |]. intros [-> [F' _]]. congruence.
Qed.


End Writer.



(** ** More on the spectrum codec *)

Lemma decode_entry_lengths {I : Interpreter}
    (acc acc' : list float * list float * list float) (e : str) :
  decode_entry acc e = Ok acc' ->
  List.length (fst (fst acc')) = S (List.length (fst (fst acc)))
  /\ List.length (snd (fst acc')) = S (List.length (snd (fst acc)))
  /\ List.length (snd acc') = S (List.length (snd acc))
  /\ occurrences (chr ",") e = 2%nat.
Proof.
  destruct acc as [[os ms] ps]. unfold decode_entry. intros H.
  pose proof (split_length (chr ",") e) as L.
  destruct (split (chr ",") e) as [| a [| b [| c [| d l]]]]; try discriminate H.
  bind_inv H. injection H as <-. cbn [fst snd].
  rewrite !length_app. cbn [List.length] in *. repeat split; lia.
Qed.

Lemma decode_entries_lengths {I : Interpreter} (entries : list str)
    (acc acc' : list float * list float * list float) :
  decode_entries acc entries = Ok acc' ->
  List.length (fst (fst acc')) = (List.length (fst (fst acc)) + List.length entries)%nat
  /\ List.length (snd (fst acc')) = (List.length (snd (fst acc)) + List.length entries)%nat
  /\ List.length (snd acc') = (List.length (snd acc) + List.length entries)%nat
  /\ Forall (fun e => occurrences (chr ",") e = 2%nat) entries.
Proof.
  revert acc. induction entries as [| e rest IH]; intros acc H.
  - injection H as <-. cbn [List.length]. repeat split; try lia. constructor.
  - cbn [decode_entries] in H.
    destruct (decode_entry acc e) as [acc1 |] eqn:E; cbn [bind] in H;
      [| discriminate H].
    apply decode_entry_lengths in E. apply IH in H.
    destruct E as [E1 [E2 [E3 E4]]]. destruct H as [H1 [H2 [H3 H4]]].
    cbn [List.length]. repeat split; try lia. now constructor.
Qed.

(** X14. A decoded spectrum has as many orders as magnitudes as phases,
    one for each entry between the slashes (a final slash apart), so at
    least one; and every entry of a string that decodes has exactly two
    commas. *)
Theorem decoded_spectrum_lengths {I : Interpreter} (s : str)
    (orders magnitudes phases : list float) :
  string_to_spectrum s = Ok (orders, magnitudes, phases) ->
  let entries :=
    split (chr "/") (if endswith s (chr "/") then drop_last s else s) in
  List.length orders = List.length entries
  /\ List.length magnitudes = List.length entries
  /\ List.length phases = List.length entries
  /\ (1 <= List.length entries)%nat
  /\ Forall (fun e => occurrences (chr ",") e = 2%nat) entries.
Proof.
  intros H entries. unfold string_to_spectrum in H. fold entries in H.
  apply decode_entries_lengths in H. cbn [fst snd List.length] in H.
  destruct H as [H1 [H2 [H3 H4]]]. repeat split; try assumption.
  unfold entries. rewrite split_length. lia.
Qed.

Lemma decoded_spectrum_lengths_witness :
  List.length [1%float; 5%float] = 2%nat
  /\ List.length [230%float; 5.2%float] = 2%nat
  /\ List.length [0%float; 180%float] = 2%nat
  /\ (1 <= 2)%nat
  /\ Forall (fun e => occurrences (chr ",") e = 2%nat)
            [lit "1,230.0,0.0"; lit "5,5.2,180.0"].
Proof.
  exact (decoded_spectrum_lengths (I := Excerpt.interpreter)
           (lit "1,230.0,0.0/5,5.2,180.0/")
           [1%float; 5%float] [230%float; 5.2%float] [0%float; 180%float]
           eq_refl).
Defined.

(** X15. One slash at the end of the string is optional: a string that
    does not end in a slash decodes the same with a slash appended. *)
Theorem final_slash_is_optional {I : Interpreter} (s : str) :
  endswith s (chr "/") = false ->
  string_to_spectrum (s ++ lit "/") = string_to_spectrum s.
Proof.
  intros H. unfold string_to_spectrum. rewrite H.
  change (lit "/") with [chr "/"].
  rewrite endswith_app by discriminate.
  change (endswith [chr "/"] (chr "/")) with true. cbv iota.
  unfold drop_last. now rewrite removelast_last.
Qed.

Lemma final_slash_is_optional_witness :
  @string_to_spectrum Excerpt.interpreter (lit "1,230.0,0.0" ++ lit "/")
  = @string_to_spectrum Excerpt.interpreter (lit "1,230.0,0.0").
Proof.
  apply (final_slash_is_optional (I := Excerpt.interpreter) (lit "1,230.0,0.0")).
  reflexivity.
Defined.

Lemma split_pieces_within (sep : char) (s p : str) (c : char) :
  In p (split sep s) -> In c p -> In c s.
Proof.
  revert p. induction s as [| x s IH]; intros p Hp Hc.
  - simpl in Hp. destruct Hp as [<- | []]. contradiction.
  - simpl in Hp. destruct (x =? sep).
    + destruct Hp as [<- | Hp]; [contradiction |]. right. now apply (IH p).
    + destruct (split sep s) as [| w ws] eqn:E.
      * now apply split_not_nil in E.
      * destruct Hp as [<- | Hp].
        -- destruct Hc as [<- | Hc]; [now left | right].
           apply (IH w); [now left | exact Hc].
        -- right. apply (IH p); [now right | exact Hc].
Qed.

(** X16. A string without a comma never decodes: its first entry is a
    single field where the unpacking takes three, and the call raises
    [ValueError] before any number is converted. *)
Theorem spectrum_without_comma_raises {I : Interpreter} (s : str) :
  contains (chr ",") s = false ->
  string_to_spectrum s = Err (ValueError_unpack 3 1).
Proof.
  intros H. unfold string_to_spectrum.
  set (s' := if endswith s (chr "/") then drop_last s else s).
  assert (H' : forall c, In c s' -> In c s).
  { unfold s'. destruct (endswith s (chr "/")); [| auto].
    intros c Hc. unfold drop_last in Hc.
    destruct s as [| x s]; [contradiction |].
    rewrite (app_removelast_last x (l := x :: s)) by discriminate.
    apply in_or_app. now left. }
  destruct (split (chr "/") s') as [| e rest] eqn:E.
  - now apply split_not_nil in E.
  - cbn [decode_entries]. unfold decode_entry at 1.
    rewrite split_without; [reflexivity |].
    apply not_true_is_false. intros A. apply contains_spec in A.
    assert (B : In (chr ",") s).
    { apply H', (split_pieces_within (chr "/") s' e); [| exact A].
      rewrite E. now left. }
    apply contains_spec in B. congruence.
Qed.

Lemma spectrum_without_comma_raises_witness :
  @string_to_spectrum Excerpt.interpreter (lit "1;230.0;0.0/")
  = Err (ValueError_unpack 3 1).
Proof.
  apply (spectrum_without_comma_raises (I := Excerpt.interpreter)
           (lit "1;230.0;0.0/")).
  reflexivity.
Defined.

(** X17. The encoder returns a string exactly when the three sequences
    have one length and some magnitude is not close to zero; the string is
    then the texts [order,magnitude,phase] of the kept entries, in their
    order, with a slash between two of them and none at the end. *)
Theorem encoded_spectrum_text {I : Interpreter}
    (orders : list number) (magnitudes : list float) (phases : list number)
    (s : str) :
  spectrum_to_string orders magnitudes phases = Ok s <->
  List.length orders = List.length magnitudes
  /\ List.length orders = List.length phases
  /\ kept_entries orders magnitudes phases <> []
  /\ s = join (lit "/") (map entry_text (kept_entries orders magnitudes phases)).
Proof.
  split.
  - intros H.
    destruct (Nat.eq_dec (List.length orders) (List.length magnitudes)) as [E1 | N1].
    2:{ unfold spectrum_to_string in H. apply Nat.eqb_neq in N1.
        rewrite N1 in H. discriminate H. }
    destruct (Nat.eq_dec (List.length orders) (List.length phases)) as [E2 | N2].
    2:{ unfold spectrum_to_string in H. apply Nat.eqb_neq in N2.
        rewrite N2, orb_true_r in H. discriminate H. }
    assert (K : kept_entries orders magnitudes phases <> []).
    { intros K. unfold spectrum_to_string in H.
      rewrite <- E1, <- E2, !Nat.eqb_refl in H. cbn [negb orb] in H.
      fold (kept_entries orders magnitudes phases) in H. rewrite K in H.
      discriminate H. }
    rewrite (encode_kept orders magnitudes phases E1 E2 K) in H.
    injection H as <-. auto.
  - intros [E1 [E2 [K ->]]]. now apply encode_kept.
Qed.

Lemma encoded_spectrum_text_witness :
  @spectrum_to_string Excerpt.interpreter
    [PyInt 1; PyInt 3; PyInt 5] [230%float; 0%float; 5.2%float]
    [PyFloat 0%float; PyFloat 0%float; PyFloat 180%float]
  = Ok (lit "1,230.0,0.0/5,5.2,180.0").
Proof.
  apply (proj2 (encoded_spectrum_text (I := Excerpt.interpreter)
                  [PyInt 1; PyInt 3; PyInt 5] [230%float; 0%float; 5.2%float]
                  [PyFloat 0%float; PyFloat 0%float; PyFloat 180%float]
                  (lit "1,230.0,0.0/5,5.2,180.0"))).
  repeat split; try reflexivity. vm_compute. discriminate.
Defined.

Lemma filter_idem {A} (p : A -> bool) (l : list A) :
  filter p (filter p l) = filter p l.
Proof.
  induction l as [| a l IH]; simpl; [reflexivity |].
  destruct (p a) eqn:E; simpl; [rewrite E; now f_equal | exact IH].
Qed.

(** X18. The entries that the filter drops do not count: for sequences
    of one length, the encoder gives for the kept entries alone what it
    gives for all entries, the same string or the same error. *)
Theorem encoding_ignores_dropped_entries {I : Interpreter}
    (orders : list number) (magnitudes : list float) (phases : list number) :
  List.length orders = List.length magnitudes ->
  List.length orders = List.length phases ->
  spectrum_to_string orders magnitudes phases =
  spectrum_to_string
    (map (fun t => fst (fst t)) (kept_entries orders magnitudes phases))
    (map (fun t => snd (fst t)) (kept_entries orders magnitudes phases))
    (map (fun t => snd t) (kept_entries orders magnitudes phases)).
Proof.
  intros E1 E2.
  assert (K : kept_entries
                (map (fun t => fst (fst t)) (kept_entries orders magnitudes phases))
                (map (fun t => snd (fst t)) (kept_entries orders magnitudes phases))
                (map (fun t => snd t) (kept_entries orders magnitudes phases))
              = kept_entries orders magnitudes phases).
  { unfold kept_entries at 1. rewrite zip3_of_maps. apply filter_idem. }
  destruct (kept_entries orders magnitudes phases) as [| t k] eqn:E.
  - unfold spectrum_to_string.
    rewrite <- E1, <- E2, !Nat.eqb_refl. cbn [negb orb].
    fold (kept_entries orders magnitudes phases). rewrite E. reflexivity.
  - rewrite (encode_kept orders magnitudes phases E1 E2) by (rewrite E; discriminate).
    rewrite encode_kept.
    + now rewrite K, E.
    + now rewrite !length_map.
    + now rewrite !length_map.
    + rewrite K. discriminate.
Qed.

Lemma encoding_ignores_dropped_entries_witness :
  @spectrum_to_string Excerpt.interpreter
    [PyInt 1; PyInt 3; PyInt 5] [230%float; 0%float; 5.2%float]
    [PyFloat 0%float; PyFloat 0%float; PyFloat 180%float]
  = @spectrum_to_string Excerpt.interpreter
      [PyInt 1; PyInt 5] [230%float; 5.2%float] [PyFloat 0%float; PyFloat 180%float].
Proof.
  exact (encoding_ignores_dropped_entries (I := Excerpt.interpreter)
           [PyInt 1; PyInt 3; PyInt 5] [230%float; 0%float; 5.2%float]
           [PyFloat 0%float; PyFloat 0%float; PyFloat 180%float]
           eq_refl eq_refl).
Defined.

(** ** The enumerations *)

(** X19. Every member of [SubCategory] is a pair of the value of a
    member of [Category] and a number, and the constructor accepts the two
    as [category] and [sub_category]. *)
Theorem subcategory_values_accepted {I : Interpreter} (s : Enums.SubCategory) :
  (exists c, Enums.Category_value c = fst (Enums.SubCategory_value s))
  /\ _validate_property (lit "category")
       (str_of_int (fst (Enums.SubCategory_value s))) true
     = Ok (str_of_int (fst (Enums.SubCategory_value s)))
  /\ _validate_property (lit "sub_category")
       (str_of_int (snd (Enums.SubCategory_value s))) true
     = Ok (str_of_int (snd (Enums.SubCategory_value s))).
Proof.
  destruct s; (split; [| split; reflexivity]);
    first [ exists Enums.LIGHTING; reflexivity
          | exists Enums.COMPUTER_AND_COMMUNICATION; reflexivity
          | exists Enums.ENTERTAINMENT; reflexivity
          | exists Enums.OTHER_APPLIANCES; reflexivity
          | exists Enums.GENERATION; reflexivity
          | exists Enums.ELECTRIC_VEHICLES; reflexivity ].
Qed.

(** X20. No two members of an enumeration have the same value, so every
    name is a member of its own and none is an alias of another. *)
Theorem enumeration_values_distinct :
  (forall a b, Enums.Category_value a = Enums.Category_value b -> a = b)
  /\ (forall a b, Enums.SubCategory_value a = Enums.SubCategory_value b -> a = b)
  /\ (forall a b, Enums.SupplySource_value a = Enums.SupplySource_value b -> a = b).
Proof.
  repeat split; intros a b H; destruct a; destruct b;
    first [reflexivity | discriminate H].
Qed.

Lemma enumeration_values_distinct_witness :
  Enums.COMPUTER_OTHER_NONCHARGING = Enums.COMPUTER_OTHER_NONCHARGING.
Proof.
  apply (proj1 (proj2 enumeration_values_distinct)). reflexivity.
Defined.

(** ** Lines of a written file, read again *)

Lemma dropwhile_stops (p : char -> bool) (x : str) (c : char) (t : str) :
  p c = false -> exists y, dropwhile p (x ++ c :: t) = y ++ c :: t.
Proof.
  intros H. induction x as [| a x [y IH]]; simpl.
  - exists []. now rewrite H.
  - destruct (p a); [now exists y |]. now exists (a :: x).
Qed.

Lemma strip_with_end (p : char -> bool) (x : str) (c w : char) :
  p c = false -> p w = true -> exists y, strip_with p (x ++ [c; w]) = y ++ [c].
Proof.
  intros Hc Hw. unfold strip_with, rstrip_with, lstrip_with.
  destruct (dropwhile_stops p x c [w] Hc) as [y ->]. exists y.
  rewrite rev_app_distr. cbn [rev app dropwhile]. rewrite Hw, Hc.
  cbn [rev]. now rewrite rev_involutive.
Qed.

(** A line that ends in a semicolon and a line feed is no section
    header. *)
Lemma semicolon_line_no_header (x : str) :
  endswith (strip (x ++ [chr ";"; LF])) (chr "]") = false.
Proof.
  destruct (strip_with_end isspace x (chr ";") LF eq_refl eq_refl) as [y E].
  unfold strip. rewrite E. now rewrite endswith_app by discriminate.
Qed.

Lemma scan_line_assignment (data : dict (dict str)) (s : str) (d : dict str)
    (key value rest : str) :
  dict_get data s = Some d ->
  contains (chr "=") key = false ->
  contains (chr "=") value = false ->
  contains (chr ";") value = false ->
  contains (chr "=") rest = false ->
  endswith (strip (key ++ chr "=" :: value ++ chr ";" :: rest)) (chr "]") = false ->
  scan_line (data, Some s) (key ++ chr "=" :: value ++ chr ";" :: rest) =
    Ok (dict_set data s (dict_set d (strip key) (strip value)), Some s).
Proof.
  intros Hd Hk Hv Hs Hr He. unfold scan_line. rewrite He.
  replace (contains (chr "=") (key ++ chr "=" :: value ++ chr ";" :: rest))
    with true.
  2:{ symmetry. apply contains_spec, in_or_app. right. now left. }
  rewrite (split_at_first _ _ _ Hk).
  rewrite split_without.
  2:{ rewrite contains_app, Hv. simpl. exact Hr. }
  rewrite (split_at_first _ _ _ Hs). cbn [hd].
  unfold getitem. rewrite Hd. reflexivity.
Qed.

(** The line that [to_txt] writes for a key is read as that key with that
    value, when the value is one that a line carries. *)
Lemma scan_key_line (data : dict (dict str)) (s : str) (d : dict str)
    (key : string) (v : str) :
  dict_get data s = Some d ->
  carried v ->
  contains (chr "=") (lit key) = false ->
  strip (lit key ++ [32]) = lit key ->
  scan_line (data, Some s) (key_line key v) =
    Ok (dict_set data s (dict_set d (lit key) v), Some s).
Proof.
  intros Hd [V1 [V2 [_ [_ V5]]]] K1 K2.
  assert (E : key_line key v
              = (lit key ++ [32]) ++ chr "=" :: (32 :: v) ++ chr ";" :: nl).
  { unfold key_line. now rewrite <- app_assoc. }
  rewrite E.
  assert (P1 : contains (chr "=") (lit key ++ [32]) = false)
    by (rewrite contains_app, K1; reflexivity).
  assert (P2 : contains (chr "=") (32 :: v) = false) by (cbn; exact V1).
  assert (P3 : contains (chr ";") (32 :: v) = false) by (cbn; exact V2).
  assert (P4 : endswith (strip ((lit key ++ [32]) ++ chr "=" :: (32 :: v)
                                  ++ chr ";" :: nl)) (chr "]") = false).
  { replace ((lit key ++ [32]) ++ chr "=" :: (32 :: v) ++ chr ";" :: nl)
      with (((lit key ++ [32]) ++ chr "=" :: 32 :: v) ++ [chr ";"; LF]).
    - apply semicolon_line_no_header.
    - rewrite <- !app_assoc. reflexivity. }
  pose proof (scan_line_assignment data s d (lit key ++ [32]) (32 :: v) nl
                Hd P1 P2 P3 eq_refl P4) as R.
  rewrite K2 in R. change (strip (32 :: v)) with (strip v) in R.
  rewrite V5 in R. exact R.
Qed.

Lemma universal_newlines_none (s : str) :
  contains CR s = false -> universal_newlines s = s.
Proof.
  induction s as [| c s IH]; [reflexivity |].
  intros H. apply orb_false_iff in H. destruct H as [H1 H2].
  cbn [universal_newlines]. rewrite N.eqb_sym, H1. now rewrite IH.
Qed.

Lemma keepends_line (body rest : str) :
  contains LF body = false ->
  keepends (body ++ LF :: rest) = (body ++ [LF]) :: keepends rest.
Proof.
  induction body as [| c body IH]; intros H.
  - reflexivity.
  - apply orb_false_iff in H. destruct H as [H1 H2].
    cbn [app keepends]. rewrite N.eqb_sym, H1, (IH H2). reflexivity.
Qed.

(** Lines that end in their only line break are read as they were
    written. *)
Lemma readlines_lines (bodies : list str) :
  Forall (fun b => contains LF b = false /\ contains CR b = false) bodies ->
  readlines (List.concat (map (fun b => b ++ [LF]) bodies))
  = map (fun b => b ++ [LF]) bodies.
Proof.
  intros H. unfold readlines.
  rewrite universal_newlines_none.
  - induction H as [| b bs [Hb _] _ IH]; [reflexivity |].
    cbn [map List.concat]. rewrite <- app_assoc. cbn [app].
    now rewrite (keepends_line b _ Hb), IH.
  - induction H as [| b bs [_ Hb] _ IH]; [reflexivity |].
    cbn [map List.concat]. rewrite !contains_app, Hb, IH. reflexivity.
Qed.

Lemma readlines_terminated (lines : list str) :
  Forall (fun l => exists b, l = b ++ [LF] /\ contains LF b = false
                             /\ contains CR b = false) lines ->
  readlines (List.concat lines) = lines.
Proof.
  intros H.
  assert (E : exists bodies, lines = map (fun b => b ++ [LF]) bodies
                             /\ Forall (fun b => contains LF b = false
                                                 /\ contains CR b = false) bodies).
  { induction H as [| l ls [b [-> Hb]] _ [bodies [-> IH]]].
    - exists []. split; [reflexivity | constructor].
    - exists (b :: bodies). split; [reflexivity | now constructor]. }
  destruct E as [bodies [-> Hb]]. now apply readlines_lines.
Qed.

Lemma dict_set_set {V} (d : dict V) (k : str) (a b : V) :
  dict_set (dict_set d k a) k b = dict_set d k b.
Proof.
  induction d as [| [k' v'] d IH]; simpl.
  - now rewrite str_eqb_refl.
  - destruct (str_eqb k' k) eqn:E; simpl; rewrite E; [reflexivity | now rewrite IH].
Qed.

Lemma scan_app (st : scan_state) (l1 l2 : list str) :
  scan st (l1 ++ l2) = bind (scan st l1) (fun st' => scan st' l2).
Proof.
  revert st. induction l1 as [| l l1 IH]; intros st; [reflexivity |].
  cbn [app scan]. destruct (scan_line st l); cbn [bind]; [apply IH | reflexivity].
Qed.

Lemma key_ok_spec (k : string) :
  key_ok k = true ->
  contains (chr "=") (lit k) = false /\ contains LF (lit k) = false
  /\ contains CR (lit k) = false /\ strip (lit k ++ [32]) = lit k.
Proof.
  unfold key_ok. intros H.
  apply andb_prop in H. destruct H as [H H4].
  apply andb_prop in H. destruct H as [H H3].
  apply andb_prop in H. destruct H as [H1 H2].
  apply negb_true_iff in H1, H2, H3. apply str_eqb_eq in H4. auto.
Qed.

Lemma name_ok_spec (n : string) :
  name_ok n = true ->
  contains LF (lit n) = false /\ contains CR (lit n) = false
  /\ strip_chars (lit "[]") (strip (header_line n)) = lit n.
Proof.
  unfold name_ok. intros H.
  apply andb_prop in H. destruct H as [H H3].
  apply andb_prop in H. destruct H as [H1 H2].
  apply negb_true_iff in H1, H2. apply str_eqb_eq in H3. auto.
Qed.

Lemma scan_header_line (data : dict (dict str)) (section : option str)
    (n : string) :
  name_ok n = true ->
  scan_line (data, section) (header_line n)
  = Ok (dict_set data (lit n) [], Some (lit n)).
Proof.
  intros H. apply name_ok_spec in H. destruct H as [_ [_ H]].
  unfold scan_line.
  assert (E : endswith (strip (header_line n)) (chr "]") = true).
  { unfold header_line. change (lit "]" ++ nl) with [chr "]"; LF].
    rewrite app_assoc.
    destruct (strip_with_end isspace (lit "[" ++ lit n) (chr "]") LF
                eq_refl eq_refl) as [y Ey].
    unfold strip. rewrite Ey. now rewrite endswith_app by discriminate. }
  rewrite E, H. reflexivity.
Qed.

Lemma scan_key_lines (data : dict (dict str)) (name : str)
    (kvs : list (string * str)) (d : dict str) :
  Forall (fun kv => key_ok (fst kv) = true /\ carried (snd kv)) kvs ->
  scan (dict_set data name d, Some name)
       (map (fun kv => key_line (fst kv) (snd kv)) kvs)
  = Ok (dict_set data name
          (fold_left (fun d kv => dict_set d (lit (fst kv)) (snd kv)) kvs d),
        Some name).
Proof.
  intros H. revert d. induction H as [| [k v] kvs [Hk Hv] _ IH]; intros d.
  - reflexivity.
  - cbn [map scan fst snd fold_left].
    apply key_ok_spec in Hk. destruct Hk as [K1 [_ [_ K4]]].
    rewrite (scan_key_line (dict_set data name d) name d k v
               (dict_get_set_same data name d) Hv K1 K4).
    cbn [bind]. rewrite dict_set_set. apply IH.
Qed.

Lemma scan_section (data : dict (dict str)) (section : option str)
    (sec : string * list (string * str)) :
  section_ok sec ->
  scan (data, section) (render_section sec)
  = Ok (dict_set data (lit (fst sec)) (section_dict (snd sec)),
        Some (lit (fst sec))).
Proof.
  intros [Hn Hk]. unfold render_section. cbn [scan].
  rewrite (scan_header_line data section (fst sec) Hn). cbn [bind].
  rewrite (scan_key_lines data (lit (fst sec)) (snd sec) [] Hk).
  reflexivity.
Qed.

Lemma scan_sections (sections : list (string * list (string * str)))
    (data : dict (dict str)) (section : option str) :
  Forall section_ok sections ->
  exists section',
    scan (data, section) (flat_map render_section sections)
    = Ok (fold_left (fun data sec =>
                       dict_set data (lit (fst sec)) (section_dict (snd sec)))
                    sections data, section').
Proof.
  intros H. revert data section.
  induction H as [| sec secs Hs _ IH]; intros data section.
  - now exists section.
  - cbn [flat_map fold_left]. rewrite scan_app, (scan_section _ _ _ Hs).
    cbn [bind]. apply IH.
Qed.

Lemma render_lines (sections : list (string * list (string * str))) :
  Forall section_ok sections ->
  readlines (render sections)
  = (lit "TUDHDB_TXT_v01" ++ nl) :: flat_map render_section sections.
Proof.
  intros H. unfold render. apply readlines_terminated.
  constructor; [exists (lit "TUDHDB_TXT_v01"); now repeat split |].
  induction H as [| sec secs [Hn Hk] _ IH]; [constructor |].
  cbn [flat_map]. apply Forall_app. split; [| exact IH].
  unfold render_section. constructor.
  - apply name_ok_spec in Hn. destruct Hn as [N1 [N2 _]].
    exists (lit "[" ++ lit (fst sec) ++ lit "]"). unfold header_line.
    split; [now rewrite <- !app_assoc |].
    rewrite !contains_app, N1, N2. now split.
  - clear IH Hn. induction Hk as [| [k v] kvs [Hk Hv] _ IH]; [constructor |].
    cbn [map fst snd] in *. constructor; [| exact IH].
    apply key_ok_spec in Hk. destruct Hk as [_ [K2 [K3 _]]].
    destruct Hv as [_ [_ [V3 [V4 _]]]].
    exists (lit k ++ lit " = " ++ v ++ lit ";"). unfold key_line.
    split; [now rewrite <- !app_assoc |].
    rewrite !contains_app, K2, K3, V3, V4. now split.
Qed.

(** Reading the file with the given sections gives the dictionary of the
    sections. *)
Lemma scan_render (sections : list (string * list (string * str))) :
  Forall section_ok sections ->
  exists section,
    scan ([], None) (readlines (render sections))
    = Ok (data_of sections, section).
Proof.
  intros H. rewrite (render_lines sections H). cbn [scan].
  change (scan_line ([], None) (lit "TUDHDB_TXT_v01" ++ nl))
    with (@Ok scan_state ([], None)).
  cbn [bind]. apply (scan_sections sections [] None H).
Qed.

(** ** Values that a line carries *)

Lemma clean_carried (v : str) : forallb clean v = true -> carried v.
Proof.
  intros H. rewrite forallb_forall in H.
  assert (N : forall x, clean x = false -> contains x v = false).
  { intros x Hx. apply not_true_is_false. intros A. apply contains_spec in A.
    rewrite (H x A) in Hx. discriminate Hx. }
  repeat split; try (apply N; reflexivity).
  apply strip_with_none. apply forallb_forall. intros c Hc.
  specialize (H c Hc). unfold clean in H.
  apply andb_prop in H. destruct H as [H _].
  apply andb_prop in H. now destruct H as [H _].
Qed.

Lemma ascii_digit_clean (c : char) : ascii_digit c = true -> clean c = true.
Proof.
  unfold ascii_digit. intros H. apply andb_prop in H. destruct H as [A B].
  apply N.leb_le in A, B.
  assert (T : forallb clean (map N.of_nat (seq 48 10)) = true) by reflexivity.
  rewrite forallb_forall in T. apply T.
  rewrite <- (N2Nat.id c). apply in_map, in_seq. lia.
Qed.

Lemma str_of_int_carried (z : Z) : carried (str_of_int z).
Proof.
  apply clean_carried.
  assert (D : forall n, forallb clean (str_of_N n) = true).
  { intros n. unfold str_of_N. apply forallb_forall. intros c Hc.
    apply ascii_digit_clean.
    exact (proj1 (forallb_forall _ _) (uint_chars_digits (N.to_uint n)) c Hc). }
  destruct z as [| p | p]; cbn [str_of_int]; [apply D | apply D |].
  cbn [forallb]. rewrite D. reflexivity.
Qed.

(** A validated run of digits is carried: its characters are ASCII digits
    or, at most, allowed code points above ASCII, none of them a blank or a
    separator of the file. *)
Lemma digit_field_carried {I : Interpreter} (max : N) (v : str) :
  field_ok true max v -> carried v.
Proof.
  intros [D [A _]]. specialize (D eq_refl). apply clean_carried.
  apply forallb_forall. intros c Hc. rewrite Forall_forall in A.
  specialize (A c Hc). rewrite allowed_chars_exactly in A.
  destruct (N.ltb_spec c 128) as [Lt | Ge].
  - apply ascii_digit_clean.
    destruct v as [| x v]; [contradiction |].
    change (isdigit (x :: v)) with (forallb isdigit_char (x :: v)) in D.
    rewrite forallb_forall in D. specialize (D c Hc).
    unfold isdigit_char in D. apply N.ltb_lt in Lt. now rewrite Lt in D.
  - apply orb_prop in A. destruct A as [A | A].
    + apply listed_char_ascii in A. lia.
    + apply contains_spec in A. simpl in A.
      destruct A as [<- | [<- | [<- | []]]]; reflexivity.
Qed.

Lemma forallb_join (p : char -> bool) (sep : str) (pieces : list str) :
  forallb p sep = true -> Forall (fun s => forallb p s = true) pieces ->
  forallb p (join sep pieces) = true.
Proof.
  intros Hs H. induction H as [| x xs Hx _ IH]; [reflexivity |].
  destruct xs as [| y ys]; [exact Hx |].
  change (join sep (x :: y :: ys)) with (x ++ sep ++ join sep (y :: ys)).
  now rewrite !forallb_app, Hx, Hs, IH.
Qed.

Section Samples.
Context {I : Interpreter}.

Lemma token_clean (s : str) : token s -> forallb clean s = true.
Proof.
  intros [_ H]. rewrite forallb_forall in *. intros c Hc. specialize (H c Hc).
  unfold clean. apply andb_prop in H. now destruct H as [H _].
Qed.

Lemma token_no_comma (s : str) : token s -> contains (chr ",") s = false.
Proof.
  intros [_ H]. apply not_true_is_false. intros A. apply contains_spec in A.
  rewrite forallb_forall in H. specialize (H _ A).
  apply andb_prop in H. destruct H as [_ H]. discriminate H.
Qed.

Lemma samples_carried (l : list float) :
  Forall sample_carried l -> carried (join (lit ",") (map float_str l)).
Proof.
  intros H. apply clean_carried, forallb_join; [reflexivity |].
  apply Forall_map. eapply Forall_impl; [| exact H].
  intros x [_ T]. now apply token_clean.
Qed.

Lemma samples_read_back (l : list float) :
  l <> [] -> Forall sample_carried l ->
  mapM py_float (split (chr ",") (join (lit ",") (map float_str l))) = Ok l.
Proof.
  intros N H. change (lit ",") with [chr ","]. rewrite split_join.
  - apply mapM_float_ok. induction H as [| x xs [Hx _] _ IH]; constructor.
    + exact Hx.
    + destruct xs as [| y ys]; [constructor | apply IH; discriminate].
  - destruct l; [contradiction | discriminate].
  - apply Forall_map. eapply Forall_impl; [| exact H].
    intros x [_ T]. now apply token_no_comma.
Qed.

End Samples.

(** ** A written record, read again *)

(** Every lookup [data[section][key]] of the goal, evaluated. *)
Ltac lookups data :=
  repeat match goal with
         | |- context [lookup data ?s ?k] =>
             let v := eval cbv in (lookup data s k) in
             replace (lookup data s k) with v by reflexivity
         end;
  cbn [bind].

Section RecordRoundTrip.
Context {I : Interpreter}.

(** The constructor call of [from_txt] on the dictionary of a file
    without waveform block. *)
Lemma build_without_waveforms
    (v1 v2 v3 v4 v5 v6 v7 v8 v9 v10 v11 v12 v13 v14 v15 v16 : str) :
  build (data_of
           [ ("User Detail", [ ("Lab_ID", v1); ("User_ID", v2) ]);
             ("EUT",
              [ ("Category", v3); ("Sub_Category", v4); ("Unique_ID", v5);
                ("Manufacturer", v6); ("Product_code", v7);
                ("Sell_Country", v8); ("Sell_Year", v9); ("Rated_Power", v10);
                ("Nominal_Frequency", v11); ("Nominal_Voltage", v12);
                ("Supply_Source", v13); ("Description", v14) ]);
             ("Harmonics",
              [ ("Current_Harmonics", v15); ("Voltage_Harmonics", v16) ]) ]%string)
  = (c <- py_int v3 ;;
     s <- py_int v4 ;;
     f <- py_float v11 ;;
     nv <- py_int v12 ;;
     ss <- py_int v13 ;;
     __init__ v1 v2 c s v5 v6 v7 v8 v9 (VStr v10) (PyFloat f) (PyInt nv) ss
              v14 v15 v16 None None None).
Proof.
  match goal with |- build ?d = _ => set (data := d) end.
  unfold build, waveform_args.
  replace (dict_mem data (lit "Waveforms")) with false by reflexivity.
  lookups data. reflexivity.
Qed.

Lemma build_with_waveforms
    (v1 v2 v3 v4 v5 v6 v7 v8 v9 v10 v11 v12 v13 v14 v15 v16 w1 w2 w3 : str) :
  build (data_of
           [ ("User Detail", [ ("Lab_ID", v1); ("User_ID", v2) ]);
             ("EUT",
              [ ("Category", v3); ("Sub_Category", v4); ("Unique_ID", v5);
                ("Manufacturer", v6); ("Product_code", v7);
                ("Sell_Country", v8); ("Sell_Year", v9); ("Rated_Power", v10);
                ("Nominal_Frequency", v11); ("Nominal_Voltage", v12);
                ("Supply_Source", v13); ("Description", v14) ]);
             ("Harmonics",
              [ ("Current_Harmonics", v15); ("Voltage_Harmonics", v16) ]);
             ("Waveforms",
              [ ("Sampling_Rate", w1); ("Current_Data", w2);
                ("Voltage_Data", w3) ]) ]%string)
  = (c <- py_int v3 ;;
     s <- py_int v4 ;;
     f <- py_float v11 ;;
     nv <- py_int v12 ;;
     ss <- py_int v13 ;;
     z <- py_int w1 ;;
     cd <- mapM py_float (split (chr ",") w2) ;;
     vd <- mapM py_float (split (chr ",") w3) ;;
     __init__ v1 v2 c s v5 v6 v7 v8 v9 (VStr v10) (PyFloat f) (PyInt nv) ss
              v14 v15 v16 (Some z) (Some cd) (Some vd)).
Proof.
  match goal with |- build ?d = _ => set (data := d) end.
  unfold build, waveform_args.
  replace (dict_mem data (lit "Waveforms")) with true by reflexivity.
  lookups data.
  destruct (py_int v3); [| reflexivity].
  destruct (py_int v4); [| reflexivity].
  destruct (py_float v11); [| reflexivity].
  destruct (py_int v12); [| reflexivity].
  destruct (py_int v13); [| reflexivity].
  destruct (py_int w1); [| reflexivity].
  destruct (mapM py_float (split (chr ",") w2)); [| reflexivity].
  destruct (mapM py_float (split (chr ",") w3)); reflexivity.
Qed.


Lemma init_revalidates
    (lab_id user_id : str) (category sub_category : Z)
    (unique_id manufacturer product_code sell_country sell_year : str)
    (rated_power rated_power' : value)
    (nominal_frequency nominal_voltage nominal_frequency' nominal_voltage' : number)
    (supply_source : Z) (description current_harmonics voltage_harmonics : str)
    (rate : option Z) (current voltage : option (list float)) (r : record) :
  __init__ lab_id user_id category sub_category unique_id manufacturer
           product_code sell_country sell_year rated_power nominal_frequency
           nominal_voltage supply_source description current_harmonics
           voltage_harmonics rate current voltage = Ok r ->
  __init__ lab_id user_id category sub_category unique_id manufacturer
           product_code sell_country sell_year rated_power' nominal_frequency'
           nominal_voltage' supply_source description current_harmonics
           voltage_harmonics rate current voltage
  = Ok {| lab_id := PandaFile.lab_id r;
          user_id := PandaFile.user_id r;
          category := PandaFile.category r;
          sub_category := PandaFile.sub_category r;
          unique_id := PandaFile.unique_id r;
          manufacturer := PandaFile.manufacturer r;
          product_code := PandaFile.product_code r;
          sell_country := PandaFile.sell_country r;
          sell_year := PandaFile.sell_year r;
          rated_power := rated_power';
          nominal_frequency := nominal_frequency';
          nominal_voltage := nominal_voltage';
          supply_source := PandaFile.supply_source r;
          description := PandaFile.description r;
          current_harmonics := PandaFile.current_harmonics r;
          voltage_harmonics := PandaFile.voltage_harmonics r;
          sample_rate := PandaFile.sample_rate r;
          current_data := PandaFile.current_data r;
          voltage_data := PandaFile.voltage_data r |}.
Proof.
  unfold __init__. intros H. bind_inv H. injection H as <-. reflexivity.
Qed.

(** The sections of the file of a constructed record come back from their
    lines, when the free texts of the record are carried. *)
Lemma sections_of_ok (c s : Z) (r0 r : record) :
  construct c s r0 = Ok r ->
  carried (unique_id r) -> carried (manufacturer r) ->
  carried (product_code r) -> carried (sell_country r) ->
  carried (description r) ->
  carried (str_of_value (rated_power r)) ->
  carried (str_of_number (nominal_frequency r)) ->
  carried (str_of_number (nominal_voltage r)) ->
  carried (current_harmonics r) -> carried (voltage_harmonics r) ->
  waveform_carried (sample_rate r) (current_data r) (voltage_data r) ->
  Forall section_ok (sections_of r).
Proof.
  intros H U M P SC D RP NF NV CH VH W.
  unfold construct in H. apply init_inv in H.
  destruct H as [_ [[V1 [V2 [V3 [V4 [_ [_ [_ [_ [V9 _]]]]]]]]] _]].
  apply digit_field_carried in V1, V2, V3, V4, V9.
  pose proof (str_of_int_carried (supply_source r)) as SS.
  unfold sections_of. apply Forall_app. split.
  - repeat (apply Forall_cons || apply Forall_nil);
      (split; [reflexivity |]); cbn [snd];
      repeat (apply Forall_cons || apply Forall_nil);
      (split; [reflexivity | cbn [snd]; assumption]).
  - unfold waveform_carried in W.
    destruct (sample_rate r) as [rate |]; destruct (current_data r) as [cd |];
      destruct (voltage_data r) as [vd |]; try constructor; try contradiction.
    + destruct W as [_ [_ [Wc Wv]]]. split; [reflexivity |]. cbn [snd].
      repeat (apply Forall_cons || apply Forall_nil);
        (split; [reflexivity | cbn [snd]]).
      * apply str_of_int_carried.
      * now apply samples_carried.
      * now apply samples_carried.
    + constructor.
Qed.


(** A constructed record is what the constructor gives on its own
    attributes. *)
Lemma construct_idem (c s : Z) (r0 r : record) :
  construct c s r0 = Ok r ->
  construct c s r = Ok r
  /\ category r = str_of_int c /\ sub_category r = str_of_int s.
Proof.
  unfold construct. intros H. pose proof (init_inv _ _ _ _ _ _ _ _ _ _ _ _ _ _ _ _ _ _ _ _ H) as [E _].
  rewrite E in H |- *. cbn. auto.
Qed.

Lemma record_read_back (c s : Z) (r0 r : record) (f : float) (z : Z) :
  construct c s r0 = Ok r ->
  carried (unique_id r) -> carried (manufacturer r) ->
  carried (product_code r) -> carried (sell_country r) ->
  carried (description r) ->
  carried (str_of_value (rated_power r)) ->
  carried (str_of_number (nominal_frequency r)) ->
  float_of_str (str_of_number (nominal_frequency r)) = Some f ->
  nominal_voltage r = PyInt z ->
  carried (current_harmonics r) -> carried (voltage_harmonics r) ->
  waveform_carried (sample_rate r) (current_data r) (voltage_data r) ->
  forallb encodable (render (sections_of r)) = true ->
  to_txt r = Ok (render (sections_of r))
  /\ from_txt (render (sections_of r)) = Ok (read_back r f).
Proof.
  intros H U M P SC D RP NF Ff NV CH VH W En.
  assert (S : Forall section_ok (sections_of r)).
  { apply (sections_of_ok c s r0); try assumption.
    rewrite NV. apply str_of_int_carried. }
  apply construct_idem in H. destruct H as [H [Ec Es]].
  split.
  - apply to_txt_ok. split; [reflexivity |]. split; [exact En |].
    unfold waveform_carried in W.
    destruct (sample_rate r); destruct (current_data r);
      destruct (voltage_data r); try contradiction;
      try (now left); right; split; discriminate.
  - clear En. unfold from_txt. destruct (scan_render _ S) as [sec E]. rewrite E.
    cbn [bind fst]. clear E S.
    unfold construct in H.
    apply (init_revalidates _ _ _ _ _ _ _ _ _ _
             (VStr (str_of_value (rated_power r))) _ _ (PyFloat f)
             (nominal_voltage r)) in H.
    change (Ok _) with (Ok (read_back r f)) in H.
    unfold sections_of, waveform_carried in *.
    destruct (sample_rate r) as [rate |] eqn:SR;
      destruct (current_data r) as [cd |] eqn:CD;
      destruct (voltage_data r) as [vd |] eqn:VD; try contradiction.
    + destruct W as [Nc [Nv [Wc Wv]]].
      etransitivity; [apply build_with_waveforms |].
      rewrite (samples_read_back cd Nc Wc), (samples_read_back vd Nv Wv).
      rewrite Ec, Es, NV. cbn [str_of_number]. unfold py_int, py_float.
      rewrite !int_of_str_of_int, Ff. cbn [bind].
      rewrite NV in H. exact H.
    + etransitivity; [apply build_without_waveforms |].
      rewrite Ec, Es, NV. cbn [str_of_number]. unfold py_int, py_float.
      rewrite !int_of_str_of_int, Ff. cbn [bind].
      rewrite NV in H. exact H.
Qed.

(** X21. A constructed record whose free texts have no equals sign, no
    semicolon, no line break and no blank at either end, whose nominal
    voltage is an integer, whose nominal frequency has a text that reads
    as the float [f], whose waveform block is absent or whole with
    samples that read back, and whose file holds only characters that the
    encoding of the file has, is written by [to_txt] and read by
    [from_txt] as the same record, but for the rated power, which comes
    back as its text, and the nominal frequency, which comes back as [f]:
    a record with a textual rated power and the float frequency [f] comes
    back equal. *)
Theorem written_record_reads_back (c s : Z) (r0 r : record) (f : float) (z : Z) :
  construct c s r0 = Ok r ->
  carried (unique_id r) -> carried (manufacturer r) ->
  carried (product_code r) -> carried (sell_country r) ->
  carried (description r) ->
  carried (str_of_value (rated_power r)) ->
  carried (str_of_number (nominal_frequency r)) ->
  float_of_str (str_of_number (nominal_frequency r)) = Some f ->
  nominal_voltage r = PyInt z ->
  carried (current_harmonics r) -> carried (voltage_harmonics r) ->
  waveform_carried (sample_rate r) (current_data r) (voltage_data r) ->
  forallb encodable (render (sections_of r)) = true ->
  exists text,
    to_txt r = Ok text
    /\ from_txt text = Ok (read_back r f)
    /\ (forall p, rated_power r = VStr p -> nominal_frequency r = PyFloat f ->
         from_txt text = Ok r).
Proof.
  intros H U M P SC D RP NF Ff NV CH VH W En.
  destruct (record_read_back c s r0 r f z H U M P SC D RP NF Ff NV CH VH W En)
    as [T F].
  exists (render (sections_of r)). split; [exact T |]. split; [exact F |].
  intros p Hp Hf. rewrite F. f_equal. unfold read_back.
  clear - Hp Hf. destruct r. cbn in *. now subst.
Qed.

End RecordRoundTrip.

Lemma written_record_reads_back_witness :
  exists text,
    @to_txt Excerpt.interpreter sample = Ok text
    /\ @from_txt Excerpt.interpreter text
       = Ok (@read_back Excerpt.interpreter sample 50%float)
    /\ (forall p, rated_power sample = VStr p ->
         nominal_frequency sample = PyFloat 50%float ->
         @from_txt Excerpt.interpreter text = Ok sample).
Proof.
  apply (written_record_reads_back (I := Excerpt.interpreter)
           3 14 sample sample 50%float 230);
    try (repeat split; vm_compute; reflexivity).
  - repeat split; try (vm_compute; discriminate);
      repeat (apply Forall_cons || apply Forall_nil);
      (repeat split; try (vm_compute; reflexivity); vm_compute; discriminate).
Defined.


(** ** The decoder on well-formed strings *)

Section DecoderSpec.
Context {I : Interpreter}.

Lemma decode_entry_fields (acc : list float * list float * list float)
    (t : str * str * str) (v : float * float * float) :
  fields_ok t ->
  float_of_str (fst (fst t)) = Some (fst (fst v)) ->
  float_of_str (snd (fst t)) = Some (snd (fst v)) ->
  float_of_str (snd t) = Some (snd v) ->
  decode_entry acc (entry_of t)
  = Ok (fst (fst acc) ++ [fst (fst v)], snd (fst acc) ++ [snd (fst v)],
        snd acc ++ [snd v]).
Proof.
  intros [Ha [Hb Hc]] Fa Fb Fc. destruct acc as [[os ms] ps].
  unfold decode_entry, entry_of.
  rewrite (split_at_first _ _ _ (no_sep_comma _ Ha)),
    (split_at_first _ _ _ (no_sep_comma _ Hb)),
    (split_without _ _ (no_sep_comma _ Hc)).
  unfold py_float. rewrite Fa, Fb, Fc. reflexivity.
Qed.

Lemma entry_of_no_slash (t : str * str * str) :
  fields_ok t -> contains (chr "/") (entry_of t) = false.
Proof.
  intros [Ha [Hb Hc]]. unfold entry_of.
  rewrite contains_app, (no_sep_slash _ Ha). cbn [contains existsb orb].
  change (existsb (N.eqb (chr "/"))) with (contains (chr "/")).
  rewrite contains_app, (no_sep_slash _ Hb). cbn [contains existsb orb].
  change (existsb (N.eqb (chr "/"))) with (contains (chr "/")).
  rewrite (no_sep_slash _ Hc). reflexivity.
Qed.

Lemma decode_entries_fields (ts : list (str * str * str))
    (vs : list (float * float * float))
    (acc : list float * list float * list float) :
  Forall fields_ok ts ->
  Forall2 (fun t v => float_of_str (fst (fst t)) = Some (fst (fst v))
                      /\ float_of_str (snd (fst t)) = Some (snd (fst v))
                      /\ float_of_str (snd t) = Some (snd v)) ts vs ->
  decode_entries acc (map entry_of ts)
  = Ok (fst (fst acc) ++ map (fun v => fst (fst v)) vs,
        snd (fst acc) ++ map (fun v => snd (fst v)) vs,
        snd acc ++ map (fun v => snd v) vs).
Proof.
  intros Hok H. revert acc Hok.
  induction H as [| t v ts vs [Fa [Fb Fc]] _ IH]; intros acc Hok.
  - simpl. rewrite !app_nil_r. now destruct acc as [[? ?] ?].
  - inversion Hok as [| ? ? Ht Hts]; subst.
    cbn [map decode_entries].
    rewrite (decode_entry_fields acc t v Ht Fa Fb Fc). cbn [bind].
    rewrite (IH _ Hts). cbn [fst snd]. now rewrite <- !app_assoc.
Qed.

(** X22. A string of entries [order,magnitude,phase] with a slash between
    two of them, whose fields hold no comma and no slash and read as
    floats, decodes to the three sequences of those floats, in the order
    of the entries. *)
Theorem well_formed_spectrum_decodes (ts : list (str * str * str))
    (vs : list (float * float * float)) :
  ts <> [] ->
  Forall fields_ok ts ->
  Forall2 (fun t v => float_of_str (fst (fst t)) = Some (fst (fst v))
                      /\ float_of_str (snd (fst t)) = Some (snd (fst v))
                      /\ float_of_str (snd t) = Some (snd v)) ts vs ->
  string_to_spectrum (join (lit "/") (map entry_of ts))
  = Ok (map (fun v => fst (fst v)) vs, map (fun v => snd (fst v)) vs,
        map (fun v => snd v) vs).
Proof.
  intros Hn Hok H. unfold string_to_spectrum.
  assert (E : endswith (join (lit "/") (map entry_of ts)) (chr "/") = false).
  { destruct (exists_last Hn) as [ts' [t Et]]. subst ts.
    rewrite map_app. cbn [map].
    destruct (join_last (lit "/") (map entry_of ts') (entry_of t)) as [pre ->].
    rewrite endswith_app.
    - apply not_true_is_false. intros A. apply endswith_contains in A.
      rewrite entry_of_no_slash in A; [discriminate |].
      rewrite Forall_forall in Hok. apply Hok, in_or_app. right. now left.
    - unfold entry_of. intros A. apply (f_equal (@List.length char)) in A.
      rewrite length_app in A. simpl in A. lia. }
  rewrite E. change (lit "/") with [chr "/"]. rewrite split_join.
  - apply (decode_entries_fields ts vs ([], [], []) Hok H).
  - destruct ts; [contradiction | discriminate].
  - apply Forall_forall. intros p Hp. apply in_map_iff in Hp.
    destruct Hp as [t [<- Ht]]. apply entry_of_no_slash.
    rewrite Forall_forall in Hok. now apply Hok.
Qed.

End DecoderSpec.

Lemma well_formed_spectrum_decodes_witness :
  @string_to_spectrum Excerpt.interpreter
    (join (lit "/") (map entry_of [ (lit "1", lit "230.0", lit "0.0");
                                    (lit "5", lit "5.2", lit "180.0") ]))
  = Ok ([1%float; 5%float], [230%float; 5.2%float], [0%float; 180%float]).
Proof.
  apply (well_formed_spectrum_decodes (I := Excerpt.interpreter)
           [ (lit "1", lit "230.0", lit "0.0"); (lit "5", lit "5.2", lit "180.0") ]
           [ (1%float, 230%float, 0%float); (5%float, 5.2%float, 180%float) ]).
  - discriminate.
  - repeat constructor.
  - repeat constructor.
Defined.

(** X23. A line that is neither a section header nor an assignment has no
    effect on the reading, wherever it stands among the lines: the loop
    gives the same dictionary, or the same error, with and without it. *)
Theorem other_lines_have_no_effect (st : scan_state) (before after : list str)
    (line : str) :
  passed_over line = true ->
  scan st (before ++ line :: after) = scan st (before ++ after).
Proof.
  intros H. unfold passed_over in H. apply andb_prop in H.
  destruct H as [H1 H2]. apply negb_true_iff in H1, H2.
  rewrite !scan_app. destruct (scan st before) as [st' | e]; [| reflexivity].
  cbn [bind scan]. now rewrite (scan_line_ignored st' line H1 H2).
Qed.

Lemma other_lines_have_no_effect_witness :
  scan ([], None) ([lit "[EUT]" ++ nl] ++ (lit "# a remark" ++ nl)
                     :: [lit "Category = 3;" ++ nl])
  = scan ([], None) ([lit "[EUT]" ++ nl] ++ [lit "Category = 3;" ++ nl]).
Proof.
  apply (other_lines_have_no_effect ([], None) [lit "[EUT]" ++ nl]
           [lit "Category = 3;" ++ nl] (lit "# a remark" ++ nl)).
  reflexivity.
Defined.

(** ** Sections that the reader does not know, and incomplete waveforms *)

Section Sections.
Context {I : Interpreter}.

(** The constructor call of [from_txt] looks up four sections only. *)
Lemma build_ext (data data' : dict (dict str)) :
  dict_get data' (lit "User Detail") = dict_get data (lit "User Detail") ->
  dict_get data' (lit "EUT") = dict_get data (lit "EUT") ->
  dict_get data' (lit "Harmonics") = dict_get data (lit "Harmonics") ->
  dict_get data' (lit "Waveforms") = dict_get data (lit "Waveforms") ->
  build data' = build data.
Proof.
  intros H1 H2 H3 H4.
  unfold build, waveform_args, lookup, getitem, dict_mem.
  now rewrite H1, H2, H3, H4.
Qed.

(** X24. A section that [from_txt] does not look up, added at the end of
    a file of well-formed sections, changes nothing: the file is read to
    the same record, or fails with the same error. *)
Theorem unknown_section_is_ignored
    (sections : list (string * list (string * str)))
    (n : string) (kvs : list (string * str)) :
  Forall section_ok sections -> section_ok (n, kvs) ->
  lit n <> lit "User Detail" -> lit n <> lit "EUT" ->
  lit n <> lit "Harmonics" -> lit n <> lit "Waveforms" ->
  from_txt (render (sections ++ [(n, kvs)])) = from_txt (render sections).
Proof.
  intros Hs Hn N1 N2 N3 N4. unfold from_txt.
  assert (Hs' : Forall section_ok (sections ++ [(n, kvs)])).
  { apply Forall_app. split; [exact Hs | now constructor]. }
  destruct (scan_render _ Hs) as [sec E]. destruct (scan_render _ Hs') as [sec' E'].
  rewrite E, E'. cbn [bind fst]. unfold data_of. rewrite fold_left_app.
  cbn [fold_left fst snd].
  apply build_ext; apply dict_get_set_other; congruence.
Qed.

(** X25. When the file has a section [Waveforms], its three keys are
    looked up in the order [Sampling_Rate], [Current_Data],
    [Voltage_Data]: the first one missing raises [KeyError] with its name,
    a sampling rate that is no integer raises [ValueError], and so does a
    piece of the data that is no float; and whenever the evaluation of
    these arguments raises, [from_txt] returns no record. *)
Theorem incomplete_waveform_section (text : str) (data : dict (dict str))
    (section : option str) (w : dict str) :
  scan ([], None) (readlines text) = Ok (data, section) ->
  dict_get data (lit "Waveforms") = Some w ->
  (dict_get w (lit "Sampling_Rate") = None ->
   waveform_args data = Err (KeyError (Some (lit "Sampling_Rate"))))
  /\ (forall s, dict_get w (lit "Sampling_Rate") = Some s ->
      int_of_str s = None ->
      waveform_args data = Err (ValueError_int s))
  /\ (forall s z, dict_get w (lit "Sampling_Rate") = Some s ->
      int_of_str s = Some z ->
      (dict_get w (lit "Current_Data") = None ->
       waveform_args data = Err (KeyError (Some (lit "Current_Data"))))
      /\ (forall c p, dict_get w (lit "Current_Data") = Some c ->
          In p (split (chr ",") c) -> float_of_str p = None ->
          exists q, In q (split (chr ",") c) /\ float_of_str q = None
                    /\ waveform_args data = Err (ValueError_float q))
      /\ (forall c cd, dict_get w (lit "Current_Data") = Some c ->
          mapM py_float (split (chr ",") c) = Ok cd ->
          (dict_get w (lit "Voltage_Data") = None ->
           waveform_args data = Err (KeyError (Some (lit "Voltage_Data"))))
          /\ (forall v p, dict_get w (lit "Voltage_Data") = Some v ->
              In p (split (chr ",") v) -> float_of_str p = None ->
              exists q, In q (split (chr ",") v) /\ float_of_str q = None
                        /\ waveform_args data = Err (ValueError_float q))))
  /\ (forall e, waveform_args data = Err e -> exists e', from_txt text = Err e').
Proof.
  intros Hs Hw. split; [| split; [| split]].
  - intros H. rewrite (waveform_args_present data w Hw).
    unfold getitem. now rewrite H.
  - intros s H F. rewrite (waveform_args_present data w Hw).
    unfold getitem at 1. rewrite H. cbn [bind]. unfold py_int. now rewrite F.
  - intros s z H F.
    assert (R : waveform_args data =
                (c <- getitem w (lit "Current_Data") ;;
                 cd <- mapM py_float (split (chr ",") c) ;;
                 v <- getitem w (lit "Voltage_Data") ;;
                 vd <- mapM py_float (split (chr ",") v) ;;
                 Ok (Some z, Some cd, Some vd))).
    { rewrite (waveform_args_present data w Hw).
      unfold getitem at 1. rewrite H. cbn [bind]. unfold py_int.
      now rewrite F. }
    rewrite R. clear R. split; [| split].
    + intros C. unfold getitem. now rewrite C.
    + intros c p C Hp Fp. unfold getitem at 1. rewrite C. cbn [bind].
      destruct (mapM_float_err _ p Hp Fp) as [q [Hq [Fq Mq]]].
      exists q. rewrite Mq. auto.
    + intros c cd C M. split.
      * intros V. unfold getitem. rewrite C, V. cbn [bind]. now rewrite M.
      * intros v p V Hp Fp.
        destruct (mapM_float_err _ p Hp Fp) as [q [Hq [Fq Mq]]].
        exists q. unfold getitem. rewrite C, V. cbn [bind]. rewrite M.
        cbn [bind]. rewrite Mq. auto.
  - intros e He. unfold from_txt. rewrite Hs. cbn [bind fst].
    exact (build_fails data e He).
Qed.

End Sections.

Lemma unknown_section_is_ignored_witness :
  @from_txt Excerpt.interpreter
    (render (@sections_of Excerpt.interpreter sample
             ++ [("Notes", [("Operator", lit "A. B.")])]%string))
  = @from_txt Excerpt.interpreter (render (@sections_of Excerpt.interpreter sample)).
Proof.
  apply (unknown_section_is_ignored (I := Excerpt.interpreter)
           (@sections_of Excerpt.interpreter sample) "Notes"
           [("Operator", lit "A. B.")]%string);
    try (vm_compute; discriminate).
  - repeat (apply Forall_cons || apply Forall_nil);
      (split; [reflexivity |]);
      repeat (apply Forall_cons || apply Forall_nil);
      (split; [reflexivity | repeat split; reflexivity]).
  - split; [reflexivity |].
    repeat (apply Forall_cons || apply Forall_nil);
      (split; [reflexivity | repeat split; reflexivity]).
Defined.

Lemma incomplete_waveform_section_witness :
  @waveform_args Excerpt.interpreter
    [ (lit "Waveforms", [ (lit "Sampling_Rate", lit "1000") ]) ]
  = Err (KeyError (Some (lit "Current_Data"))).
Proof.
  apply (proj1 (proj1 (proj2 (proj2
           (incomplete_waveform_section (I := Excerpt.interpreter)
              (lit "[Waveforms]" ++ nl ++ lit "Sampling_Rate = 1000;" ++ nl)
              [ (lit "Waveforms", [ (lit "Sampling_Rate", lit "1000") ]) ]
              (Some (lit "Waveforms"))
              [ (lit "Sampling_Rate", lit "1000") ]
              eq_refl eq_refl)))
           (lit "1000") 1000%Z eq_refl eq_refl)).
  reflexivity.
Defined.
